(** * SkillBridge AI service: the roadmap generation engine

    A shallow embedding of the [/roadmap] endpoint of
    [ai_service/main.py] and the properties stated for it.

    Python strings are Rocq strings (one [ascii] per character, ASCII
    text); Python integers are [Z]; the free-form [dict] arguments of the
    request carry JSON-shaped values, modelled by [value].  A Python
    exception is an explicit [Raise] result. *)

From Stdlib Require Import String Ascii List ZArith NArith QArith Bool Lia FinFun.
From Stdlib Require Import DecimalString.
Import ListNotations.

Local Open Scope list_scope.
Local Open Scope string_scope.

(** ** The Python layer: the builtins the endpoint relies on *)

Module Py.

(** *** Exceptions *)

Inductive exn : Type :=
| TypeError
| AttributeError
| ValueError
| OverflowError.

Inductive result (A : Type) : Type :=
| Ok (a : A)
| Raise (e : exn).

Arguments Ok {A} a.
Arguments Raise {A} e.

Definition bind {A B : Type} (m : result A) (k : A -> result B) : result B :=
  match m with
  | Ok a => k a
  | Raise e => Raise e
  end.

(** *** Strings *)

(** [str.lower()] on ASCII text. *)
Definition lower_char (c : ascii) : ascii :=
  let n := N_of_ascii c in
  if ((65 <=? n) && (n <=? 90))%N then ascii_of_N (n + 32) else c.

Fixpoint lower (s : string) : string :=
  match s with
  | EmptyString => EmptyString
  | String c s' => String (lower_char c) (lower s')
  end.

(** The characters [str.strip()] removes: tab, line feed, vertical tab,
    form feed, carriage return, the four separators 28..31 and space. *)
Definition is_space (c : ascii) : bool :=
  let n := N_of_ascii c in
  (((9 <=? n) && (n <=? 13)) || ((28 <=? n) && (n <=? 32)))%N.

Fixpoint lstrip (s : string) : string :=
  match s with
  | EmptyString => EmptyString
  | String c s' => if is_space c then lstrip s' else s
  end.

Fixpoint rstrip (s : string) : string :=
  match s with
  | EmptyString => EmptyString
  | String c s' =>
      match rstrip s' with
      | EmptyString => if is_space c then EmptyString else String c EmptyString
      | r => String c r
      end
  end.

Definition strip (s : string) : string := rstrip (lstrip s).

(** [a in b] on strings: [a] occurs in [b] as a contiguous substring. *)
Fixpoint str_in (a b : string) : bool :=
  prefix a b ||
  match b with
  | EmptyString => false
  | String _ b' => str_in a b'
  end.

(** [s in l] on a list of strings. *)
Definition mem (s : string) (l : list string) : bool :=
  existsb (String.eqb s) l.

(** [sep.join(l)]. *)
Definition join (sep : string) (l : list string) : string :=
  String.concat sep l.

(** Truthiness of a string and of a list. *)
Definition nonempty (s : string) : bool :=
  match s with
  | EmptyString => false
  | String _ _ => true
  end.

Definition is_nil {A : Type} (l : list A) : bool :=
  match l with
  | [] => true
  | _ :: _ => false
  end.

(** *** JSON-shaped values *)

(** A finite float is held by its exact rational value; a JSON body can
    also deliver an infinity (a number such as 1e999) and NaN. *)
#[warnings="-register-all"] Inductive value : Type :=
| VNone
| VBool (b : bool)
| VInt (z : Z)
| VFloat (q : Q)
| VStr (s : string)
| VList (l : list value)
| VDict (d : list (string * value))
| VInf (negative : bool)
| VNaN.

(** A [dict] with string keys, in insertion order. *)
Definition dict : Type := list (string * value).

Definition truthy (v : value) : bool :=
  match v with
  | VNone => false
  | VBool b => b
  | VInt z => negb (z =? 0)%Z
  | VFloat q => negb (Qnum q =? 0)%Z
  | VStr s => nonempty s
  | VList l => negb (is_nil l)
  | VDict d => negb (is_nil d)
  | VInf _ => true
  | VNaN => true
  end.

(** [x or y]. *)
Definition or_else (x y : value) : value :=
  if truthy x then x else y.

(** [d.get(k)], [None] when the key is absent. *)
Fixpoint get (k : string) (d : dict) : value :=
  match d with
  | [] => VNone
  | (k', v) :: d' => if (k =? k')%string then v else get k d'
  end.

(** [isinstance(v, str)], giving the string. *)
Definition as_str (v : value) : option string :=
  match v with
  | VStr s => Some s
  | _ => None
  end.

(** The strings of a list of values, in order: the entries for which
    [isinstance(v, str)] holds. *)
Fixpoint strs (l : list value) : list string :=
  match l with
  | [] => []
  | v :: l' =>
      match as_str v with
      | Some s => s :: strs l'
      | None => strs l'
      end
  end.

Fixpoint chars (s : string) : list value :=
  match s with
  | EmptyString => []
  | String c s' => VStr (String c EmptyString) :: chars s'
  end.

(** What a [for] loop or a comprehension visits: the items of a list,
    the characters of a string, the keys of a dict; any other value is
    not iterable. *)
Definition iter (v : value) : result (list value) :=
  match v with
  | VList l => Ok l
  | VStr s => Ok (chars s)
  | VDict d => Ok (map (fun kv => VStr (fst kv)) d)
  | VNone | VBool _ | VInt _ | VFloat _ | VInf _ | VNaN => Raise TypeError
  end.

(** [v.lower()]: only a string has the method. *)
Definition call_lower (v : value) : result string :=
  match v with
  | VStr s => Ok (lower s)
  | _ => Raise AttributeError
  end.

(** [int(s)] for a string, base 10: surrounding whitespace, an optional
    sign, then decimal digits with single underscores between them.  The
    whitespace [int] skips is tab, line feed, vertical tab, form feed,
    carriage return and space; the separators 28..31, which [str.strip()]
    removes, are not skipped.  A string of more than 4300 digits is
    refused. *)
Definition is_int_space (c : ascii) : bool :=
  let n := N_of_ascii c in
  (((9 <=? n) && (n <=? 13)) || (n =? 32))%N.

Fixpoint int_lstrip (s : string) : string :=
  match s with
  | EmptyString => EmptyString
  | String c s' => if is_int_space c then int_lstrip s' else s
  end.

Fixpoint int_rstrip (s : string) : string :=
  match s with
  | EmptyString => EmptyString
  | String c s' =>
      match int_rstrip s' with
      | EmptyString => if is_int_space c then EmptyString else String c EmptyString
      | r => String c r
      end
  end.

Definition max_str_digits : N := 4300.

Definition digit_of (c : ascii) : option Z :=
  let n := N_of_ascii c in
  if ((48 <=? n) && (n <=? 57))%N then Some (Z.of_N (n - 48)) else None.

Fixpoint parse_digits (acc : Z) (after_digit : bool) (s : string) : option Z :=
  match s with
  | EmptyString => if after_digit then Some acc else None
  | String c s' =>
      match digit_of c with
      | Some d => parse_digits (10 * acc + d)%Z true s'
      | None =>
          if (c =? "_")%char && after_digit
          then parse_digits acc false s'
          else None
      end
  end.

Fixpoint count_digits (s : string) : N :=
  match s with
  | EmptyString => 0%N
  | String c s' =>
      match digit_of c with
      | Some _ => (1 + count_digits s')%N
      | None => count_digits s'
      end
  end.

Definition int_of_str (s : string) : option Z :=
  let t := int_rstrip (int_lstrip s) in
  if (max_str_digits <? count_digits t)%N then None
  else
    match t with
    | String "+" r => parse_digits 0 false r
    | String "-" r => option_map Z.opp (parse_digits 0 false r)
    | t => parse_digits 0 false t
    end.

(** [int(v)]: a finite float is truncated towards zero; an infinity and
    NaN cannot be converted. *)
Definition int (v : value) : result Z :=
  match v with
  | VInt z => Ok z
  | VBool b => Ok (if b then 1 else 0)%Z
  | VFloat q => Ok (Z.quot (Qnum q) (Zpos (Qden q)))
  | VStr s =>
      match int_of_str s with
      | Some z => Ok z
      | None => Raise ValueError
      end
  | VInf _ => Raise OverflowError
  | VNaN => Raise ValueError
  | VNone | VList _ | VDict _ => Raise TypeError
  end.

End Py.

Import Py.

Notation "x <- m ;; k" := (bind m (fun x => k))
  (at level 61, m at next level, right associativity).

(** ** The roadmap endpoint *)

(** One learning resource, [{"title", "url", "type"}]. *)
Record resource : Type := {
  title : string;
  url : string;
  type : string
}.

(** One week of the plan, [{"week", "milestone", "tasks",
    "learning_resources"}]. *)
Record week_plan : Type := {
  week : Z;
  milestone : string;
  tasks : list string;
  learning_resources : list resource
}.

(** [RoadmapRequest]: the entries of [missing] are kept as values, the way
    the comprehension tests them. *)
Record RoadmapRequest : Type := {
  missing : list value;
  preferences : option dict;
  interview : option dict
}.

(** A dict from strings to [A], in insertion order, with [k in d] and
    [d.get(k, default)]. *)
Fixpoint lookup {A : Type} (k : string) (d : list (string * A)) : option A :=
  match d with
  | [] => None
  | (k', a) :: d' => if (k =? k')%string then Some a else lookup k d'
  end.

Definition get_or {A : Type} (k : string) (d : list (string * A)) (default : A) : A :=
  match lookup k d with
  | Some a => a
  | None => default
  end.

Definition has_key {A : Type} (k : string) (d : list (string * A)) : bool :=
  match lookup k d with
  | Some _ => true
  | None => false
  end.

Definition keys {A : Type} (d : list (string * A)) : list string := map fst d.

(** [area_map]: the skills each focus area puts first. *)
Definition area_map : list (string * list string) :=
  [ ("frontend", ["React"; "TailwindCSS"]);
    ("backend", ["Node.js"; "Express"; "MongoDB"]);
    ("cloud", ["AWS"; "Docker"]);
    ("ml", ["Python"; "NLP"]) ].

(** [skill_resources]: the catalog, per skill and bucket. *)
Definition skill_resources : list (string * list (string * list resource)) :=
    [
      ("React",
       [ ("foundations",
          [ {| title := "React Official Documentation";
             url := "https://react.dev/learn";
             type := "documentation" |};
            {| title := "React Tutorial for Beginners";
             url := "https://www.freecodecamp.org/news/react-beginner-handbook/";
             type := "tutorial" |};
            {| title := "React Hooks Explained";
             url := "https://www.youtube.com/watch?v=O6P86uwfdR0";
             type := "video" |} ]);
         ("project",
          [ {| title := "React Project Ideas";
             url := "https://github.com/florinpop17/app-ideas";
             type := "project-ideas" |};
            {| title := "Testing React Apps";
             url := "https://testing-library.com/docs/react-testing-library/intro/";
             type := "documentation" |};
            {| title := "React Best Practices";
             url := "https://react.dev/learn/thinking-in-react";
             type := "guide" |} ]) ]);
      ("Node.js",
       [ ("foundations",
          [ {| title := "Node.js Official Docs";
             url := "https://nodejs.org/en/docs/";
             type := "documentation" |};
            {| title := "Node.js Tutorial";
             url := "https://www.w3schools.com/nodejs/";
             type := "tutorial" |};
            {| title := "Node.js Crash Course";
             url := "https://www.youtube.com/watch?v=fBNz5xF-Kx4";
             type := "video" |} ]);
         ("project",
          [ {| title := "Express.js Guide";
             url := "https://expressjs.com/en/starter/installing.html";
             type := "documentation" |};
            {| title := "Node.js Testing with Jest";
             url := "https://jestjs.io/docs/getting-started";
             type := "documentation" |};
            {| title := "Node.js Best Practices";
             url := "https://github.com/goldbergyoni/nodebestpractices";
             type := "guide" |} ]) ]);
      ("Python",
       [ ("foundations",
          [ {| title := "Python Official Tutorial";
             url := "https://docs.python.org/3/tutorial/";
             type := "documentation" |};
            {| title := "Python for Beginners";
             url := "https://www.python.org/about/gettingstarted/";
             type := "tutorial" |};
            {| title := "Python Crash Course";
             url := "https://www.youtube.com/watch?v=rfscVS0vtbw";
             type := "video" |} ]);
         ("project",
          [ {| title := "Python Project Ideas";
             url := "https://github.com/karan/Projects";
             type := "project-ideas" |};
            {| title := "Python Testing with pytest";
             url := "https://docs.pytest.org/en/stable/";
             type := "documentation" |};
            {| title := "Python Best Practices";
             url := "https://realpython.com/python-code-quality/";
             type := "guide" |} ]) ]);
      ("MongoDB",
       [ ("foundations",
          [ {| title := "MongoDB University";
             url := "https://university.mongodb.com/";
             type := "course" |};
            {| title := "MongoDB Tutorial";
             url := "https://www.mongodb.com/docs/manual/tutorial/";
             type := "tutorial" |};
            {| title := "MongoDB Crash Course";
             url := "https://www.youtube.com/watch?v=pWbMrx5rVBE";
             type := "video" |} ]);
         ("project",
          [ {| title := "MongoDB with Node.js";
             url := "https://www.mongodb.com/docs/drivers/node/current/";
             type := "documentation" |};
            {| title := "MongoDB Schema Design";
             url := "https://www.mongodb.com/docs/manual/data-modeling/";
             type := "guide" |};
            {| title := "MongoDB Performance";
             url := "https://www.mongodb.com/docs/manual/administration/analyzing-mongodb-performance/";
             type := "guide" |} ]) ]);
      ("Express",
       [ ("foundations",
          [ {| title := "Express.js Official Guide";
             url := "https://expressjs.com/en/guide/routing.html";
             type := "documentation" |};
            {| title := "Express.js Tutorial";
             url := "https://www.tutorialspoint.com/expressjs/";
             type := "tutorial" |};
            {| title := "Express.js Crash Course";
             url := "https://www.youtube.com/watch?v=L72fhGm1tfE";
             type := "video" |} ]);
         ("project",
          [ {| title := "Express.js Best Practices";
             url := "https://expressjs.com/en/advanced/best-practice-security.html";
             type := "guide" |};
            {| title := "Express.js Testing";
             url := "https://www.albertgao.xyz/2017/05/24/how-to-test-expressjs-with-jest-and-supertest/";
             type := "tutorial" |};
            {| title := "Express.js Middleware";
             url := "https://expressjs.com/en/guide/using-middleware.html";
             type := "documentation" |} ]) ]);
      ("AWS",
       [ ("foundations",
          [ {| title := "AWS Getting Started";
             url := "https://aws.amazon.com/getting-started/";
             type := "documentation" |};
            {| title := "AWS Free Tier";
             url := "https://aws.amazon.com/free/";
             type := "tutorial" |};
            {| title := "AWS Fundamentals";
             url := "https://www.youtube.com/watch?v=ulprqHHWlng";
             type := "video" |} ]);
         ("project",
          [ {| title := "AWS Project Ideas";
             url := "https://aws.amazon.com/getting-started/hands-on/";
             type := "project-ideas" |};
            {| title := "AWS Well-Architected";
             url := "https://aws.amazon.com/architecture/well-architected/";
             type := "guide" |};
            {| title := "AWS Security Best Practices";
             url := "https://aws.amazon.com/architecture/security-identity-compliance/";
             type := "guide" |} ]) ]);
      ("Docker",
       [ ("foundations",
          [ {| title := "Docker Official Tutorial";
             url := "https://docs.docker.com/get-started/";
             type := "documentation" |};
            {| title := "Docker for Beginners";
             url := "https://docker-curriculum.com/";
             type := "tutorial" |};
            {| title := "Docker Crash Course";
             url := "https://www.youtube.com/watch?v=fqMOX6JJhGo";
             type := "video" |} ]);
         ("project",
          [ {| title := "Docker Best Practices";
             url := "https://docs.docker.com/develop/dev-best-practices/";
             type := "guide" |};
            {| title := "Docker Compose Tutorial";
             url := "https://docs.docker.com/compose/gettingstarted/";
             type := "tutorial" |};
            {| title := "Docker Security";
             url := "https://docs.docker.com/engine/security/";
             type := "guide" |} ]) ]);
      ("TailwindCSS",
       [ ("foundations",
          [ {| title := "Tailwind CSS Documentation";
             url := "https://tailwindcss.com/docs";
             type := "documentation" |};
            {| title := "Tailwind CSS Tutorial";
             url := "https://www.youtube.com/watch?v=UBOj6rqRUME";
             type := "video" |};
            {| title := "Tailwind CSS Components";
             url := "https://tailwindui.com/components";
             type := "examples" |} ]);
         ("project",
          [ {| title := "Tailwind CSS Best Practices";
             url := "https://tailwindcss.com/docs/reusing-styles";
             type := "guide" |};
            {| title := "Tailwind CSS with React";
             url := "https://tailwindcss.com/docs/guides/create-react-app";
             type := "tutorial" |};
            {| title := "Responsive Design with Tailwind";
             url := "https://tailwindcss.com/docs/responsive-design";
             type := "documentation" |} ]) ]);
      ("NLP",
       [ ("foundations",
          [ {| title := "Natural Language Processing with Python";
             url := "https://www.nltk.org/book/";
             type := "book" |};
            {| title := "spaCy Tutorial";
             url := "https://spacy.io/usage/spacy-101";
             type := "tutorial" |};
            {| title := "NLP Course by Hugging Face";
             url := "https://huggingface.co/course/chapter1/1";
             type := "course" |} ]);
         ("project",
          [ {| title := "NLP Project Ideas";
             url := "https://github.com/keon/awesome-nlp";
             type := "project-ideas" |};
            {| title := "Transformers Library";
             url := "https://huggingface.co/docs/transformers/index";
             type := "documentation" |};
            {| title := "NLP with PyTorch";
             url := "https://pytorch.org/tutorials/beginner/nlp/";
             type := "tutorial" |} ]) ])
    ].

(** [default_resources]: search links for a skill outside the catalog. *)
Definition default_resources (skill : string) : list (string * list resource) :=
  [ ("foundations",
     [ {| title := skill ++ " Official Documentation";
          url := "https://www.google.com/search?q=" ++ skill ++ "+official+documentation";
          type := "documentation" |};
       {| title := skill ++ " Tutorial";
          url := "https://www.google.com/search?q=" ++ skill ++ "+tutorial+beginner";
          type := "tutorial" |};
       {| title := skill ++ " Video Course";
          url := "https://www.youtube.com/results?search_query=" ++ skill ++ "+crash+course";
          type := "video" |} ]);
    ("project",
     [ {| title := skill ++ " Project Ideas";
          url := "https://www.google.com/search?q=" ++ skill ++ "+project+ideas";
          type := "project-ideas" |};
       {| title := skill ++ " Best Practices";
          url := "https://www.google.com/search?q=" ++ skill ++ "+best+practices";
          type := "guide" |};
       {| title := skill ++ " Testing Guide";
          url := "https://www.google.com/search?q=" ++ skill ++ "+testing+guide";
          type := "guide" |} ]) ].

(** The bucket a milestone title selects. *)
Definition resource_type_of (milestone_type : string) : string :=
  if str_in "foundations" (lower milestone_type) then "foundations"
  else if str_in "project" (lower milestone_type) then "project"
  else if str_in "reinforcement" (lower milestone_type) then "project"
  else "foundations".

(** The partial match of the catalog loop: the first key that contains
    the skill or is contained in it, case ignored. *)
Definition partial_match (skill key : string) : bool :=
  str_in (lower key) (lower skill) || str_in (lower skill) (lower key).

Definition skill_key_of (skill : string) : string :=
  if has_key skill skill_resources then skill
  else
    match find (partial_match skill) (keys skill_resources) with
    | Some key => key
    | None => skill
    end.

Definition get_learning_resources (skill milestone_type : string) : list resource :=
  let resource_type := resource_type_of milestone_type in
  let skill_key := skill_key_of skill in
  match lookup skill_key skill_resources with
  | Some buckets => get_or resource_type buckets []
  | None => get_or resource_type (default_resources skill) []
  end.

Definition stretch_goal_task : string :=
  "Optional advanced reading/practice for stretch goals".

Definition reflect_task : string :=
  "Reflect: write notes on key learnings".

(** The pacing adjustment of [add_week]. *)
Definition adjust_tasks (pace : string) (hours : Z) (tasks : list string) : list string :=
  if (pace =? "fast")%string && (8 <=? hours)%Z then (tasks ++ [stretch_goal_task])%list
  else if (pace =? "slow")%string || (hours <? 5)%Z then (firstn 2 tasks ++ [reflect_task])%list
  else tasks.

(** [add_week], with the [weeks] it appends to passed in and returned;
    [pace] and [hours] are the variables it closes over. *)
Definition add_week (pace : string) (hours : Z)
    (milestone : string) (tasks : list string) (skill : string)
    (weeks : list week_plan) : list week_plan :=
  let base_tasks := adjust_tasks pace hours tasks in
  let resources :=
    if nonempty skill then get_learning_resources skill milestone else [] in
  (weeks ++ [ {| week := Z.of_nat (length weeks) + 1;
                 milestone := milestone;
                 tasks := base_tasks;
                 learning_resources := resources |} ])%list.

(** [if weeks: weeks[-1]["learning_resources"] = resources]. *)
Definition with_resources (resources : list resource) (w : week_plan) : week_plan :=
  {| week := week w;
     milestone := milestone w;
     tasks := tasks w;
     learning_resources := resources |}.

Fixpoint set_last_resources (resources : list resource) (weeks : list week_plan)
    : list week_plan :=
  match weeks with
  | [] => []
  | [w] => [with_resources resources w]
  | w :: ws => w :: set_last_resources resources ws
  end.

(** The comprehension that cleans [req.missing]: falsy and non-string
    entries are skipped, the others stripped. *)
Fixpoint clean_missing (l : list value) : list string :=
  match l with
  | [] => []
  | m :: l' =>
      match as_str m with
      | Some s => if truthy m then strip s :: clean_missing l' else clean_missing l'
      | None => clean_missing l'
      end
  end.

(** The reads of the two optional dicts, each with its [or] default. *)
Definition focus_of (prefs : dict) : result (list string) :=
  items <- iter (or_else (get "focus" prefs) (VList [])) ;;
  Ok (map lower (strs items)).

Definition pace_of (prefs : dict) : result string :=
  call_lower (or_else (get "pace" prefs) (VStr "balanced")).

Definition hours_of (prefs : dict) : result Z :=
  int (or_else (get "availability_hours" prefs) (VInt 6)).

Definition topics_of (field : string) (interview : dict) : result (list string) :=
  items <- iter (or_else (get field interview) (VList [])) ;;
  Ok (strs items).

Definition avg_score_of (interview : dict) : result Z :=
  int (or_else (get "avg_score" interview) (VInt 0)).

(** [req.preferences or {}] and [req.interview or {}]. *)
Definition dict_or_empty (d : option dict) : dict :=
  match d with
  | Some d => d
  | None => []
  end.

(** The two prioritization loops. *)
Definition prioritize_area (missing : list string)
    (prioritized : list string) (area : string) : list string :=
  fold_left
    (fun prioritized s =>
       if mem s missing && negb (mem s prioritized)
       then (prioritized ++ [s])%list else prioritized)
    (get_or area area_map []) prioritized.

Definition prioritize (focus missing : list string) : list string :=
  let prioritized := fold_left (prioritize_area missing) focus [] in
  fold_left
    (fun prioritized s =>
       if negb (mem s prioritized) then (prioritized ++ [s])%list else prioritized)
    missing prioritized.

(** The task lists handed to [add_week]. *)
Definition foundations_tasks (skill : string) : list string :=
  [ "Read the official " ++ skill ++ " docs and summarize key concepts";
    "Complete a beginner tutorial/course for " ++ skill;
    "Practice: implement 2-3 small exercises using " ++ skill ].

Definition project_tasks (skill : string) : list string :=
  [ "Design and build a mini app using " ++ skill;
    "Add tests (unit/integration) and linting for the project";
    "Document learnings and challenges; push to a public repo" ].

Definition reinforcement_tasks (skill : string) : list string :=
  [ "Targeted practice on weak areas in " ++ skill ++ " (based on interview)";
    "Implement a small feature addressing an identified gap in " ++ skill;
    "Summarize lessons learned and update your notes" ].

Definition stretch_task : string :=
  "Stretch: add an advanced feature and write a postmortem".

Definition scope_down_task : string :=
  "Scope down and solidify fundamentals before expanding".

Definition capstone_tasks (avg_score : Z) : list string :=
  ([ "Plan a portfolio-level project combining the learned skills";
     "Implement core features, focusing on clean architecture";
     "Add basic CI (tests) and deploy locally or to a free tier" ]
   ++ (if (70 <=? avg_score)%Z then [stretch_task] else [])
   ++ (if (avg_score <? 50)%Z then [scope_down_task] else []))%list.

Definition assessment_tasks (showcase : string) : list string :=
  [ "Create a README and short demo video of the capstone";
    "Write a blog/notes highlighting " ++ showcase;
    "Prepare interview stories around the project (problem, approach, impact)" ].

Definition capstone_resources : list resource :=
  [ {| title := "Portfolio Project Ideas";
       url := "https://github.com/practical-tutorials/project-based-learning";
       type := "project-ideas" |};
    {| title := "Clean Architecture Guide";
       url := "https://blog.cleancoder.com/uncle-bob/2012/08/13/the-clean-architecture.html";
       type := "guide" |};
    {| title := "CI/CD Best Practices";
       url := "https://docs.github.com/en/actions/learn-github-actions";
       type := "documentation" |} ].

Definition assessment_resources : list resource :=
  [ {| title := "How to Write a Great README";
       url := "https://www.makeareadme.com/";
       type := "guide" |};
    {| title := "Creating Demo Videos";
       url := "https://www.loom.com/";
       type := "tool" |};
    {| title := "Technical Interview Stories";
       url := "https://www.pramp.com/blog/how-to-tell-your-story-during-a-technical-interview";
       type := "guide" |} ].

(** [any(skill.lower() in t.lower() for t in weak_topics)]. *)
Definition flagged_weak (weak_topics : list string) (skill : string) : bool :=
  existsb (fun t => str_in (lower skill) (lower t)) weak_topics.

(** The body of the loop over [prioritized]. *)
Definition skill_weeks (pace : string) (hours : Z) (weak_topics : list string)
    (weeks : list week_plan) (skill : string) : list week_plan :=
  let weeks :=
    add_week pace hours ("Foundations: " ++ skill) (foundations_tasks skill) skill weeks in
  let weeks :=
    add_week pace hours ("Project: Build with " ++ skill) (project_tasks skill) skill weeks in
  if flagged_weak weak_topics skill
  then add_week pace hours ("Reinforcement: " ++ skill) (reinforcement_tasks skill) skill weeks
  else weeks.

Definition showcase_of (strength_topics : list string) : string :=
  if is_nil strength_topics then "key concepts"
  else join ", " (firstn 3 strength_topics).

(** From [weeks = []] to the returned list. *)
Definition build_weeks (pace : string) (hours : Z) (prioritized : list string)
    (weak_topics strength_topics : list string) (avg_score : Z) : list week_plan :=
  let weeks := [] in
  let weeks := fold_left (skill_weeks pace hours weak_topics) prioritized weeks in
  let combo := join ", " prioritized in
  let weeks :=
    add_week pace hours ("Capstone: Integrate " ++ combo) (capstone_tasks avg_score) EmptyString weeks in
  let weeks := set_last_resources capstone_resources weeks in
  let showcase := showcase_of strength_topics in
  let weeks :=
    add_week pace hours "Assessment & Reflection" (assessment_tasks showcase) EmptyString weeks in
  set_last_resources assessment_resources weeks.

Definition prefs_of (req : RoadmapRequest) : dict :=
  dict_or_empty (preferences req).

Definition interview_of (req : RoadmapRequest) : dict :=
  dict_or_empty (interview req).

(** The endpoint; the result is the list under the ["roadmap"] key of the
    response. *)
Definition roadmap (req : RoadmapRequest) : result (list week_plan) :=
  let missing := clean_missing (missing req) in
  if is_nil missing then Ok []
  else
    let prefs := prefs_of req in
    let interview := interview_of req in
    focus <- focus_of prefs ;;
    pace <- pace_of prefs ;;
    hours <- hours_of prefs ;;
    let prioritized := prioritize focus missing in
    weak_topics <- topics_of "weak_topics" interview ;;
    strength_topics <- topics_of "strength_topics" interview ;;
    avg_score <- avg_score_of interview ;;
    Ok (build_weeks pace hours prioritized weak_topics strength_topics avg_score).

(** ** The calls the endpoint makes to [add_week]

    The endpoint builds [weeks] by a fixed sequence of [add_week] calls,
    the last two followed by an overwrite of the resources.  [week_calls]
    lists those calls; [weeks_from] is the list they leave behind.  The
    lemma [build_weeks_calls] below shows the two agree. *)

Record call : Type := {
  c_milestone : string;
  c_tasks : list string;
  c_skill : string;
  c_overwrite : option (list resource)
}.

Definition skill_calls (weak_topics : list string) (skill : string) : list call :=
  ([ {| c_milestone := "Foundations: " ++ skill;
        c_tasks := foundations_tasks skill;
        c_skill := skill; c_overwrite := None |};
     {| c_milestone := "Project: Build with " ++ skill;
        c_tasks := project_tasks skill;
        c_skill := skill; c_overwrite := None |} ]
   ++ (if flagged_weak weak_topics skill
       then [ {| c_milestone := "Reinforcement: " ++ skill;
                 c_tasks := reinforcement_tasks skill;
                 c_skill := skill; c_overwrite := None |} ]
       else []))%list.

Definition capstone_call (prioritized : list string) (avg_score : Z) : call :=
  {| c_milestone := "Capstone: Integrate " ++ join ", " prioritized;
     c_tasks := capstone_tasks avg_score;
     c_skill := EmptyString; c_overwrite := Some capstone_resources |}.

Definition assessment_call (strength_topics : list string) : call :=
  {| c_milestone := "Assessment & Reflection";
     c_tasks := assessment_tasks (showcase_of strength_topics);
     c_skill := EmptyString; c_overwrite := Some assessment_resources |}.

Definition week_calls (prioritized weak_topics strength_topics : list string)
    (avg_score : Z) : list call :=
  (flat_map (skill_calls weak_topics) prioritized
   ++ [capstone_call prioritized avg_score; assessment_call strength_topics])%list.

Definition week_of_call (pace : string) (hours : Z) (n : nat) (c : call) : week_plan :=
  {| week := Z.of_nat n + 1;
     milestone := c_milestone c;
     tasks := adjust_tasks pace hours (c_tasks c);
     learning_resources :=
       match c_overwrite c with
       | Some resources => resources
       | None =>
           if nonempty (c_skill c)
           then get_learning_resources (c_skill c) (c_milestone c)
           else []
       end |}.

Fixpoint weeks_from (pace : string) (hours : Z) (n : nat) (cs : list call)
    : list week_plan :=
  match cs with
  | [] => []
  | c :: cs' => week_of_call pace hours n c :: weeks_from pace hours (S n) cs'
  end.

(** The task lists of the five call sites, with the milestone each is
    passed with. *)
Inductive call_site : string -> list string -> Prop :=
| site_foundations skill :
    call_site ("Foundations: " ++ skill) (foundations_tasks skill)
| site_project skill :
    call_site ("Project: Build with " ++ skill) (project_tasks skill)
| site_reinforcement skill :
    call_site ("Reinforcement: " ++ skill) (reinforcement_tasks skill)
| site_capstone prioritized avg_score :
    call_site ("Capstone: Integrate " ++ join ", " prioritized)
              (capstone_tasks avg_score)
| site_assessment strength_topics :
    call_site "Assessment & Reflection"
              (assessment_tasks (showcase_of strength_topics)).

(** ** More of the Python layer, for the other endpoints *)

Module PyText.

(** [x or ""] for an optional string. *)
Definition str_or_empty (x : option string) : string :=
  match x with
  | Some s => s
  | None => EmptyString
  end.

(** [any(k in text for k in keywords)]. *)
Definition any_in (keywords : list string) (text : string) : bool :=
  existsb (fun keyword => str_in keyword text) keywords.

(** [ch.isdigit()] on ASCII text, and [any(ch.isdigit() for ch in s)]. *)
Definition is_digit (c : ascii) : bool :=
  let n := N_of_ascii c in ((48 <=? n) && (n <=? 57))%N.

Fixpoint has_digit (s : string) : bool :=
  match s with
  | EmptyString => false
  | String c s' => is_digit c || has_digit s'
  end.

(** [s.split()]: the maximal runs of characters that are not whitespace.
    [word] is the run being read. *)
Fixpoint split_from (word : string) (s : string) : list string :=
  match s with
  | EmptyString => if nonempty word then [word] else []
  | String c s' =>
      if is_space c then
        if nonempty word then word :: split_from EmptyString s'
        else split_from EmptyString s'
      else split_from (word ++ String c EmptyString) s'
  end.

Definition split (s : string) : list string := split_from EmptyString s.

(** [str(n)] for an integer, as an f-string prints it. *)
Definition str_of_nat (n : nat) : string :=
  NilEmpty.string_of_uint (Nat.to_uint n).

Definition str_of_Z (z : Z) : string :=
  NilEmpty.string_of_int (Z.to_int z).

(** [round(num / den)] for [den > 0]: to the nearest integer, a tie going
    to the even one. *)
Definition round_half_even (num den : Z) : Z :=
  let q := (num / den)%Z in
  let r := (num mod den)%Z in
  if (2 * r <? den)%Z then q
  else if (den <? 2 * r)%Z then (q + 1)%Z
  else if Z.even q then q
  else (q + 1)%Z.

End PyText.

Import PyText.

(** ** The gap endpoint *)

Module Gap.

(** [GapRequest] and the response [{"targetRole", "missing"}]. *)
Record GapRequest : Type := {
  skills : list string;
  target_role : string
}.

Record response : Type := {
  targetRole : string;
  missing : list string
}.

(** The chain of tests on the lower-cased role. *)
Definition desired_for (role : string) : list string :=
  if str_in "frontend" role then
    ["React"; "TailwindCSS"]
  else if str_in "backend" role then
    ["Node.js"; "Express"; "MongoDB"; "Docker"]
  else if (str_in "full" role && str_in "stack" role) || str_in "full-stack" role then
    ["React"; "TailwindCSS"; "Node.js"; "Express"; "MongoDB"; "Docker"; "AWS"]
  else if str_in "ml" role then
    ["Python"; "NLP"; "Docker"; "AWS"]
  else if str_in "data" role && str_in "scientist" role then
    ["Python"; "NLP"; "AWS"; "MongoDB"]
  else
    ["React"; "Node.js"; "MongoDB"; "Docker"; "AWS"].

Definition gap (req : GapRequest) : response :=
  let role := lower (target_role req) in
  let desired := desired_for role in
  let missing := filter (fun s => negb (mem s (skills req))) desired in
  {| targetRole := target_role req; missing := missing |}.

End Gap.

(** ** The interview endpoints *)

Module Interview.

Record InterviewStartRequest : Type := {
  target_role : option string;
  skills : list string;
  resume_text : option string
}.

Definition generate_role_based_questions (role : string) : list string :=
  if str_in "full" role && str_in "stack" role then
    [ "Explain how React's component state and hooks work together to manage UI state.";
      "Describe the Node.js event loop and how it impacts asynchronous code.";
      "How would you design a REST API with Express and MongoDB, including schema considerations?";
      "What are Docker containers and images, and how would you containerize a Node/React app?";
      "How do you secure AWS resources (e.g., S3, EC2) using IAM best practices?" ]
  else if str_in "frontend" role then
    [ "What are React hooks and when would you use useEffect vs useMemo?";
      "How do you optimize performance in a large React app (code splitting, memoization)?";
      "Explain how CSS frameworks like TailwindCSS can improve developer productivity." ]
  else if str_in "backend" role then
    [ "Explain the Node.js event loop and non-blocking I/O.";
      "How would you design scalable APIs with Express, including auth and rate limiting?";
      "Discuss database indexing strategies in MongoDB to improve query performance." ]
  else
    [ "Tell me about a project you built and what you learned.";
      "How do you approach debugging complex issues?";
      "Describe how you collaborate in a team setting." ].

Definition project_keywords : list string :=
  ["project"; "built"; "developed"; "implemented"; "created"; "designed";
   "deployed"; "architected"].

Definition technologies : list (string * string) :=
  [ ("react", "React"); ("node", "Node.js"); ("express", "Express");
    ("mongodb", "MongoDB"); ("python", "Python"); ("docker", "Docker");
    ("aws", "AWS"); ("javascript", "JavaScript"); ("typescript", "TypeScript");
    ("tailwind", "TailwindCSS"); ("css", "CSS"); ("html", "HTML"); ("sql", "SQL");
    ("git", "Git"); ("api", "API"); ("rest", "REST API"); ("graphql", "GraphQL");
    ("redux", "Redux"); ("vue", "Vue.js"); ("angular", "Angular");
    ("kubernetes", "Kubernetes"); ("jenkins", "Jenkins"); ("ci/cd", "CI/CD");
    ("microservices", "Microservices"); ("redis", "Redis");
    ("postgresql", "PostgreSQL"); ("mysql", "MySQL") ].

Definition experience_indicators : list (string * list string) :=
  [ ("years", ["year"; "yr"]);
    ("senior_roles", ["senior"; "lead"; "principal"; "architect"; "manager"; "director"]);
    ("achievements", ["reduced"; "improved"; "increased"; "optimized"; "delivered"; "achieved"]);
    ("team_work", ["team"; "collaborated"; "mentored"; "managed"; "coordinated"]);
    ("scale", ["million"; "thousand"; "users"; "requests"; "traffic"; "scale"]) ].

(** The questions drawn from the resume itself: the body of
    [generate_resume_based_questions] up to the point where the role
    questions are fetched.  [tech_stack] is computed and not used. *)
Definition resume_questions (resume_text : string) : list string :=
  let resume_lower := lower resume_text in
  let questions : list string := [] in
  let has_projects := any_in project_keywords resume_lower in
  let tech_stack :=
    map snd (filter (fun t => str_in (fst t) resume_lower) technologies) in
  let has_senior_experience :=
    any_in (get_or "senior_roles" experience_indicators []) resume_lower in
  let has_achievements :=
    any_in (get_or "achievements" experience_indicators []) resume_lower in
  let has_team_experience :=
    any_in (get_or "team_work" experience_indicators []) resume_lower in
  let has_scale_experience :=
    any_in (get_or "scale" experience_indicators []) resume_lower in
  let questions :=
    if has_projects then
      if has_achievements then
        (questions ++ ["I see you've delivered measurable results in your projects. Can you walk me through a specific project where you achieved significant improvements and explain your technical approach?"])%list
      else
        (questions ++ ["Tell me about one of the most technically challenging projects on your resume. What obstacles did you face and how did you solve them?"])%list
    else questions in
  let questions :=
    if str_in "react" resume_lower then
      if str_in "redux" resume_lower || str_in "state" resume_lower then
        (questions ++ ["I notice you have React and state management experience. Can you explain a complex state management scenario you've handled and why you chose your particular approach?"])%list
      else
        (questions ++ ["Your resume shows React experience. Can you describe how you've optimized React applications for performance and what patterns you follow for component architecture?"])%list
    else questions in
  let questions :=
    if str_in "node" resume_lower || str_in "express" resume_lower then
      if str_in "microservices" resume_lower || str_in "api" resume_lower then
        (questions ++ ["I see you have Node.js and API experience. How do you design scalable backend architectures, and what patterns do you use for error handling and logging?"])%list
      else
        (questions ++ ["Your resume mentions Node.js. Can you explain how you handle asynchronous operations and what strategies you use for performance optimization?"])%list
    else questions in
  let questions :=
    if str_in "mongodb" resume_lower || str_in "database" resume_lower then
      if has_scale_experience then
        (questions ++ ["I notice you have database experience with scale considerations. How do you approach database optimization for high-traffic applications?"])%list
      else
        (questions ++ ["Tell me about your database design approach. How do you handle data modeling and ensure query performance?"])%list
    else questions in
  let questions :=
    if str_in "docker" resume_lower then
      if str_in "kubernetes" resume_lower || str_in "orchestration" resume_lower then
        (questions ++ ["I see you have containerization and orchestration experience. Can you explain how you've implemented container orchestration and managed deployments?"])%list
      else
        (questions ++ ["Your resume shows Docker experience. How do you approach containerization strategy and what benefits have you seen in your projects?"])%list
    else questions in
  let questions :=
    if str_in "aws" resume_lower || str_in "cloud" resume_lower then
      if str_in "security" resume_lower || str_in "iam" resume_lower then
        (questions ++ ["I notice cloud and security experience on your resume. How do you implement security best practices in cloud environments and manage access controls?"])%list
      else
        (questions ++ ["Tell me about your cloud architecture experience. How do you design for scalability and cost optimization in cloud environments?"])%list
    else questions in
  let questions :=
    if has_senior_experience then
      if has_team_experience then
        (questions ++ ["Based on your leadership experience, how do you approach technical decision-making in a team environment and ensure knowledge sharing?"])%list
      else
        (questions ++ ["I see you have senior-level experience. How do you approach code reviews and maintaining technical standards across projects?"])%list
    else questions in
  let questions :=
    if has_team_experience && negb has_senior_experience then
      (questions ++ ["I notice you have collaborative experience. How do you handle technical disagreements in a team and ensure effective communication?"])%list
    else questions in
  let questions :=
    if has_achievements then
      (questions ++ ["Your resume shows measurable achievements. Can you describe a specific optimization or improvement you made and walk me through your problem-solving process?"])%list
    else questions in
  let questions :=
    if has_scale_experience then
      (questions ++ ["I see you've worked with large-scale systems. What challenges have you faced with performance and scalability, and how did you address them?"])%list
    else questions in
  let questions :=
    if str_in "startup" resume_lower || str_in "entrepreneur" resume_lower then
      (questions ++ ["I see you have startup experience. How do you balance rapid development with maintaining code quality and technical debt?"])%list
    else questions in
  questions.

Definition generate_resume_based_questions (resume_text role : string)
    (skills : list string) : list string :=
  let questions := resume_questions resume_text in
  let role_questions := generate_role_based_questions role in
  let all_questions := (questions ++ role_questions)%list in
  firstn 5 all_questions.

(** The endpoint; the result is the list under the ["questions"] key. *)
Definition interview_start (req : InterviewStartRequest) : list string :=
  let role := lower (str_or_empty (target_role req)) in
  let resume_text := str_or_empty (resume_text req) in
  if nonempty resume_text then
    generate_resume_based_questions resume_text role (skills req)
  else
    generate_role_based_questions role.

End Interview.

(** ** The scoring endpoint *)

Module Score.

Record InterviewScoreRequest : Type := {
  question : string;
  answer : string
}.

Record response : Type := {
  score : Z;
  feedback : string
}.

Definition topics : list (string * list string) :=
  [ ("react", ["component"; "state"; "props"; "hooks"; "useeffect"; "usememo"]);
    ("node", ["event loop"; "async"; "await"; "express"; "non-blocking"]);
    ("mongodb", ["schema"; "index"; "aggregation"; "document"; "collection"]);
    ("docker", ["container"; "image"; "compose"; "registry"]);
    ("aws", ["ec2"; "s3"; "iam"; "security"; "vpc"]);
    ("tailwind", ["utility"; "class"; "responsive"; "css"]);
    ("api", ["rest"; "http"; "auth"; "rate limit"; "jwt"]) ].

(** The keywords the question selects: those of every topic it names, or
    of "api" when it names none. *)
Definition keywords_for (q : string) : list string :=
  let selected_keys := filter (fun k => str_in k q) (keys topics) in
  let selected_keys := if is_nil selected_keys then ["api"] else selected_keys in
  flat_map (fun k => get_or k topics []) selected_keys.

(** [int((matches / total) * 100)].  The quotient and the product are
    floating-point operations; [total] is between 5 and 34 and [matches]
    between 0 and [total], and on that range the truncated product is the
    integer quotient of [100 * matches] by [total]. *)
Definition percent (matches total : Z) : Z := (100 * matches) / total.

Definition interview_score (req : InterviewScoreRequest) : response :=
  let q := lower (question req) in
  let a := lower (answer req) in
  let keywords := keywords_for q in
  let matches := Z.of_nat (length (filter (fun kw => str_in kw a) keywords)) in
  let total := Z.max 5 (Z.of_nat (length keywords)) in
  let base_score := percent matches total in
  let bonus := Z.min 20 (Z.of_nat (String.length a) / 50) in
  let score := Z.max 0 (Z.min 100 (base_score + bonus)) in
  let feedback :=
    if (70 <=? score)%Z then "Good coverage of key concepts."
    else if (40 <=? score)%Z then
      "Decent answer, consider elaborating on core concepts mentioned in the question."
    else "Try to address the core concepts directly and provide concrete examples." in
  {| score := score; feedback := feedback |}.

End Score.

(** ** The resume analysis endpoint *)

Module Resume.

Record ResumeAnalyzeRequest : Type := {
  text : string;
  target_role : option string
}.

Record response : Type := {
  summary : string;
  targetRole : option string;
  fit : Z;
  resume_score : Z;
  extracted_skills : list string;
  missing_skills : list string;
  strengths : list string;
  weaknesses : list string;
  notes : list string
}.

Definition known_skills : list string :=
  ["JavaScript"; "React"; "Node.js"; "Express"; "MongoDB"; "Python"; "FastAPI";
   "Docker"; "AWS"; "NLP"; "TailwindCSS"].

(** The chain of tests on the lower-cased role, as this endpoint writes it. *)
Definition desired_for (role : string) : list string :=
  if str_in "frontend" role then
    ["React"; "TailwindCSS"]
  else if str_in "backend" role then
    ["Node.js"; "Express"; "MongoDB"; "Docker"]
  else if (str_in "full" role && str_in "stack" role) || str_in "full-stack" role then
    ["React"; "TailwindCSS"; "Node.js"; "Express"; "MongoDB"; "Docker"; "AWS"]
  else if str_in "ml" role then
    ["Python"; "NLP"; "Docker"; "AWS"]
  else if str_in "data" role && str_in "scientist" role then
    ["Python"; "NLP"; "AWS"; "MongoDB"]
  else
    ["React"; "Node.js"; "MongoDB"; "Docker"; "AWS"].

(** [int(100 * covered / max(1, n))]: the division is a floating-point
    one of two small integers, and its truncation is the integer quotient. *)
Definition fit_of (n_desired n_recommended : nat) : Z :=
  Z.quot (100 * (Z.of_nat n_desired - Z.of_nat n_recommended))
         (Z.max 1 (Z.of_nat n_desired)).

(** [int((k / max(1, n)) * 100)], of the summary; with [k <= 11] and [n]
    one of 2, 4, 5, 7 the floating-point product truncates to the integer
    quotient. *)
Definition skills_match (k n : nat) : Z :=
  Z.quot (100 * Z.of_nat k) (Z.max 1 (Z.of_nat n)).

(** [int(max(0, min(10, round((fit / 100.0) * 6.0 + bonus))))], with
    [bonus] the number of signals present.  The sum is a floating-point
    number; for every [fit] from 0 to 100 and every [bonus] from 0 to 4 it
    rounds, ties to even, as the exact value [(6 * fit + 100 * bonus) / 100]
    does. *)
Definition score_of (fit bonus : Z) : Z :=
  Z.max 0 (Z.min 10 (round_half_even (6 * fit + 100 * bonus) 100)).

Definition flag (b : bool) : Z := if b then 1 else 0.

(** The signals read off the text. *)
Definition has_metrics_of (text : string) : bool :=
  any_in ["%"; "percent"; "increased"; "decreased"; "improved"; "reduced";
          "growth"; "roi"] (lower text)
  || has_digit text.

Definition has_projects_of (text : string) : bool :=
  any_in ["project"; "built"; "developed"; "implemented"; "deployed"; "launched"]
    (lower text).

Definition well_structured_of (text : string) : bool :=
  let structure_hits :=
    length (filter (fun k => str_in k (lower text))
              ["experience"; "education"; "skills"; "projects"; "summary"]) in
  (2 <=? structure_hits)%nat.

Definition words_of (text : string) : nat :=
  Nat.max 1 (length (split text)).

Definition good_length_of (words : nat) : bool :=
  (200 <=? words)%nat && (words <=? 1500)%nat.

(** The block that builds [strengths]. *)
Definition strengths_of (extracted : list string)
    (has_metrics has_projects well_structured good_length : bool) : list string :=
  let strengths : list string := [] in
  let strengths :=
    if is_nil extracted then strengths
    else (strengths
          ++ [("TECHNICAL PROFICIENCY: Demonstrates solid command of "
          ++ str_of_nat (length extracted)
          ++ " key technologies including "
          ++ join ", " (firstn 4 extracted)
          ++ (if (4 <? length extracted)%nat then "..." else EmptyString)
          ++ ". This technical foundation aligns well with industry standards.")%string])%list in
  let strengths :=
    if has_metrics then
      (strengths ++ ["QUANTIFIED ACHIEVEMENTS: Excellent use of specific metrics, percentages, and measurable outcomes that clearly demonstrate impact and value delivered to previous organizations."])%list
    else strengths in
  let strengths :=
    if has_projects then
      (strengths ++ ["PROJECT PORTFOLIO: Strong showcase of hands-on development experience with practical implementations, indicating ability to translate technical skills into real-world solutions."])%list
    else strengths in
  let strengths :=
    if well_structured then
      (strengths ++ ["PROFESSIONAL PRESENTATION: Well-organized resume structure with clear sections, making it easy for recruiters and ATS systems to parse and evaluate your qualifications."])%list
    else strengths in
  let strengths :=
    if good_length then
      (strengths ++ ["OPTIMAL CONTENT LENGTH: Appropriate resume length that provides comprehensive information without overwhelming the reader, demonstrating good communication skills."])%list
    else strengths in
  strengths.

(** The block that builds [weaknesses]. *)
Definition weaknesses_of (recommended : list string)
    (has_metrics has_projects well_structured good_length : bool) (words : nat)
    : list string :=
  let weaknesses : list string := [] in
  let weaknesses :=
    if is_nil recommended then weaknesses
    else
      let critical_missing := firstn 3 recommended in
      (weaknesses
       ++ [("SKILL GAPS: Missing "
          ++ str_of_nat (length recommended)
          ++ " critical skills for this role, particularly "
          ++ join ", " critical_missing
          ++ ". Consider online courses, bootcamps, or personal projects to develop these competencies.")%string])%list in
  let weaknesses :=
    if negb has_metrics then
      (weaknesses ++ ["IMPACT QUANTIFICATION: Lacks specific numbers and measurable achievements. Add metrics like 'Improved performance by 25%', 'Reduced load time by 40%', or 'Managed team of 5 developers' to demonstrate concrete value."])%list
    else weaknesses in
  let weaknesses :=
    if negb has_projects then
      (weaknesses ++ ["PROJECT SHOWCASE: Limited evidence of practical application. Include 2-3 recent projects with technology stack, challenges solved, and outcomes achieved to demonstrate hands-on experience."])%list
    else weaknesses in
  let weaknesses :=
    if negb well_structured then
      (weaknesses ++ ["STRUCTURAL CLARITY: Resume organization needs improvement. Ensure clear sections for Professional Experience, Technical Skills, Education, and Projects with consistent formatting throughout."])%list
    else weaknesses in
  let weaknesses :=
    if negb good_length then
      if (words <? 200)%nat then
        (weaknesses ++ ["CONTENT DEPTH: Resume appears too brief. Expand with more detailed descriptions of responsibilities, achievements, and technical implementations to reach 1-2 pages."])%list
      else
        (weaknesses ++ ["CONTENT CONCISENESS: Resume may be too lengthy. Focus on most relevant experiences and achievements, removing outdated or less relevant information to improve readability."])%list
    else weaknesses in
  weaknesses.

(** The f-string of the executive summary, stripped. *)
Definition summary_of (role_name text : string)
    (extracted desired recommended : list string)
    (has_metrics has_projects well_structured good_length : bool)
    (fit resume_score : Z) : string :=
  strip
    ("
EXECUTIVE SUMMARY:
This resume analysis evaluates your candidacy for the "
      ++ role_name
      ++ " role. Your current profile demonstrates "
      ++ str_of_nat (length extracted)
      ++ " relevant technical skills with a "
      ++ str_of_Z fit
      ++ "% role alignment score. The overall resume quality scores "
      ++ str_of_Z resume_score
      ++ "/10 based on technical competency, quantified achievements, project demonstrations, and structural clarity.

TECHNICAL COMPETENCY ASSESSMENT:
Your resume showcases proficiency in "
      ++ str_of_nat (length extracted)
      ++ " key technologies: "
      ++ (if is_nil extracted then "Limited technical skills detected" else join ", " (firstn 8 extracted))
      ++ ". For the "
      ++ role_name
      ++ " position, you're missing "
      ++ str_of_nat (length recommended)
      ++ " critical skills that could significantly impact your candidacy.

CONTENT QUALITY EVALUATION:
"
      ++ (if has_metrics then "Strong quantified achievements detected - excellent use of metrics and impact statements." else "Missing quantified achievements - consider adding specific numbers, percentages, and measurable outcomes.")
      ++ "
"
      ++ (if has_projects then "Demonstrates hands-on project experience effectively." else "Limited project showcase - highlight recent development work and technical implementations.")
      ++ "
"
      ++ (if well_structured then "Well-structured with clear sections and professional formatting." else "Structure needs improvement - ensure clear Experience, Education, and Skills sections.")
      ++ "
"
      ++ (if good_length then "Appropriate length for comprehensive review." else "Length optimization needed - aim for 1-2 pages with focused, relevant content.")
      ++ "

ATS COMPATIBILITY & KEYWORD ANALYSIS:
Your resume contains "
      ++ str_of_nat (length (filter (fun s => str_in (lower s) (lower text)) extracted))
      ++ " of "
      ++ str_of_nat (length desired)
      ++ " target keywords for this role. Missing keywords that could improve ATS ranking: "
      ++ (if is_nil recommended then "None - excellent keyword coverage" else join ", " (firstn 5 recommended))
      ++ ".

SCORING BREAKDOWN:
• Technical Skills Match: "
      ++ str_of_Z (skills_match (length extracted) (length desired))
      ++ "% ("
      ++ str_of_nat (length extracted)
      ++ "/"
      ++ str_of_nat (length desired)
      ++ " skills)
• Achievement Quantification: "
      ++ (if has_metrics then "✓ Strong" else "✗ Needs Improvement")
      ++ "
• Project Demonstration: "
      ++ (if has_projects then "✓ Present" else "✗ Missing")
      ++ "
• Structure & Formatting: "
      ++ (if well_structured then "✓ Professional" else "✗ Needs Work")
      ++ "
• Content Length: "
      ++ (if good_length then "✓ Optimal" else "✗ Suboptimal")
      ++ "

OVERALL RECOMMENDATION:
"
      ++ (if (7 <=? resume_score)%Z then "Strong candidate profile with minor optimizations needed." else if (5 <=? resume_score)%Z then "Good foundation requiring strategic improvements." else "Significant enhancements recommended before applying.")
      ++ "
    ")%string.

(** The block that builds [notes]. *)
Definition notes_of (role_name : string) (extracted recommended : list string)
    (fit resume_score : Z) : list string :=
  let notes : list string := [] in
  let notes :=
    if is_nil recommended then notes
    else
      let priority_skills := firstn 3 recommended in
      let secondary_skills :=
        if (3 <? length recommended)%nat then firstn 3 (skipn 3 recommended) else [] in
      let notes :=
        (notes
         ++ [("PRIORITY SKILL DEVELOPMENT: Focus immediately on "
          ++ join ", " priority_skills
          ++ " as these are critical for the "
          ++ role_name
          ++ " role. Recommended learning path: online courses → personal projects → portfolio showcase.")%string])%list in
      if is_nil secondary_skills then notes
      else
        (notes
         ++ [("SECONDARY SKILLS: Consider developing "
          ++ join ", " secondary_skills
          ++ " to further strengthen your candidacy and stand out from other applicants.")%string])%list in
  let notes :=
    if is_nil extracted then notes
    else
      (notes
       ++ [("LEVERAGE EXISTING STRENGTHS: Your proficiency in "
          ++ join ", " (firstn 6 extracted)
          ++ " is valuable. Consider highlighting specific projects or achievements using these technologies to demonstrate depth of experience.")%string])%list in
  let notes :=
    if (resume_score <? 7)%Z then
      (notes ++ ["IMMEDIATE ACTIONS: 1) Add 2-3 quantified achievements per role, 2) Include links to GitHub/portfolio, 3) Tailor keywords to job descriptions, 4) Get feedback from industry professionals."])%list
    else notes in
  let notes :=
    if (fit <? 70)%Z then
      (notes
       ++ [("ROLE ALIGNMENT: Current "
          ++ str_of_Z fit
          ++ "% role fit suggests significant skill gaps. Consider targeting roles that better match your current skillset while developing missing competencies, or invest 3-6 months in intensive skill development.")%string])%list
    else notes in
  let notes :=
    (notes ++ ["ATS OPTIMIZATION: Ensure your resume includes exact keyword matches from job postings, uses standard section headers, and is saved in both PDF and Word formats for different application systems."])%list in
  notes.

(** The endpoint, its blocks in the order of the source. *)
Definition resume_analyze (req : ResumeAnalyzeRequest) : response :=
  let text := text req in
  let role := lower (str_or_empty (target_role req)) in
  let role_name :=
    match target_role req with
    | Some r => if nonempty r then r else "target"
    | None => "target"
    end in
  let lt := lower text in
  let extracted := filter (fun s => str_in (lower s) lt) known_skills in
  let desired := desired_for role in
  let recommended := filter (fun s => negb (mem s extracted)) desired in
  let has_metrics := has_metrics_of text in
  let has_projects := has_projects_of text in
  let well_structured := well_structured_of text in
  let words := words_of text in
  let good_length := good_length_of words in
  let fit := fit_of (length desired) (length recommended) in
  let bonus :=
    (flag has_metrics + flag well_structured + flag has_projects + flag good_length)%Z in
  let resume_score := score_of fit bonus in
  let strengths :=
    strengths_of extracted has_metrics has_projects well_structured good_length in
  let weaknesses :=
    weaknesses_of recommended has_metrics has_projects well_structured good_length
      words in
  let summary :=
    summary_of role_name text extracted desired recommended
      has_metrics has_projects well_structured good_length fit resume_score in
  let notes := notes_of role_name extracted recommended fit resume_score in
  {| summary := summary;
     targetRole := target_role req;
     fit := fit;
     resume_score := resume_score;
     extracted_skills := extracted;
     missing_skills := recommended;
     strengths := strengths;
     weaknesses := weaknesses;
     notes := notes |}.

End Resume.

(** ** The detailed interview endpoint *)

Module Detailed.

Record DetailedInterviewRequest : Type := {
  target_role : option string;
  skills : list string;
  resume_text : option string;
  resume_analysis : option dict
}.

(** A call either returns or raises; which exception it raises is not
    kept. *)
Inductive outcome (A : Type) : Type :=
| Returned (a : A)
| Raised.

Arguments Returned {A} a.
Arguments Raised {A}.

Definition and_then {A B : Type} (m : outcome A) (k : A -> outcome B) : outcome B :=
  match m with
  | Returned a => k a
  | Raised => Raised
  end.

(** [d.get(k, default)]. *)
Definition get_default (k : string) (d : dict) (default : value) : value :=
  match lookup k d with
  | Some v => v
  | None => default
  end.

(** The items a loop sees in [v[:n]]: the first [n] items of a list, the
    first [n] characters of a string; no other value of the analysis can
    be sliced. *)
Definition slice_items (n : nat) (v : value) : outcome (list value) :=
  match v with
  | VList l => Returned (firstn n l)
  | VStr s => Returned (firstn n (chars s))
  | VNone | VBool _ | VInt _ | VFloat _ | VDict _ | VInf _ | VNaN => Raised
  end.

(** The strings in a list of values, when every one is a string:
    [', '.join] raises on any other item, and so does [skill.lower()]. *)
Fixpoint all_strs (l : list value) : outcome (list string) :=
  match l with
  | [] => Returned []
  | VStr s :: l' => and_then (all_strs l') (fun ss => Returned (s :: ss))
  | _ :: _ => Raised
  end.

(** [v < n] and [v >= n] for an integer [n]: a number or a boolean
    compares, anything else raises.  An infinity compares by its sign and
    NaN compares false either way. *)
Definition less_than (v : value) (n : Z) : outcome bool :=
  match v with
  | VInt z => Returned (z <? n)%Z
  | VBool b => Returned ((if b then 1 else 0) <? n)%Z
  | VFloat q => Returned (Qnum q <? n * Zpos (Qden q))%Z
  | VInf negative => Returned negative
  | VNaN => Returned false
  | VNone | VStr _ | VList _ | VDict _ => Raised
  end.

Definition at_least (v : value) (n : Z) : outcome bool :=
  match v with
  | VInt z => Returned (n <=? z)%Z
  | VBool b => Returned (n <=? (if b then 1 else 0))%Z
  | VFloat q => Returned (n * Zpos (Qden q) <=? Qnum q)%Z
  | VInf negative => Returned (negb negative)
  | VNaN => Returned false
  | VNone | VStr _ | VList _ | VDict _ => Raised
  end.

(** The question a detected skill gives, if any. *)
Definition skill_question (skill : string) : list string :=
  let skill_lower := lower skill in
  if str_in "react" skill_lower then
    [("I see you have "
          ++ skill
          ++ " experience on your resume. Can you describe a complex React application you've built and explain your approach to state management and component optimization?")%string]
  else if str_in "node" skill_lower || str_in "javascript" skill_lower then
    [("Your resume shows "
          ++ skill
          ++ " expertise. Can you walk me through how you've handled scalability challenges in Node.js applications and your approach to asynchronous programming?")%string]
  else if str_in "python" skill_lower then
    [("I notice "
          ++ skill
          ++ " on your resume. Can you describe a Python project where you had to optimize performance and explain your debugging process?")%string]
  else if str_in "database" skill_lower || str_in "sql" skill_lower
          || str_in "mongodb" skill_lower then
    [("Your "
          ++ skill
          ++ " experience is evident on your resume. How do you approach database schema design and what strategies do you use for query optimization?")%string]
  else if str_in "docker" skill_lower || str_in "kubernetes" skill_lower then
    [("I see "
          ++ skill
          ++ " experience listed. Can you explain how you've implemented containerization in production environments and handled deployment challenges?")%string]
  else if str_in "aws" skill_lower || str_in "cloud" skill_lower then
    [("Your resume mentions "
          ++ skill
          ++ ". How do you design cloud architectures for scalability and what security practices do you implement?")%string]
  else [].

Section WithFormat.

(** [str(v)] for a value that is not a string, as an f-string prints it. *)
Variable format_other : value -> string.

Definition fmt (v : value) : string :=
  match v with
  | VStr s => s
  | _ => format_other v
  end.

Definition generate_detailed_resume_questions (resume_text role : string)
    (skills : list string) (resume_analysis : dict) : outcome (list string) :=
  let questions : list string := [] in
  let detected_skills := get_default "detectedSkills" resume_analysis (VList []) in
  let missing_skills := get_default "missingSkills" resume_analysis (VList []) in
  let strengths := get_default "strengths" resume_analysis (VList []) in
  let weaknesses := get_default "weaknesses" resume_analysis (VList []) in
  let role_fit := get_default "roleFit" resume_analysis (VInt 0) in
  let resume_score := get_default "score" resume_analysis (VInt 0) in
  and_then
    (if truthy detected_skills then
       and_then (slice_items 3 detected_skills) (fun top_skills =>
       and_then (all_strs top_skills) (fun top_skills =>
       Returned (questions ++ flat_map skill_question top_skills)%list))
     else Returned questions) (fun questions =>
  and_then
    (if truthy missing_skills then
       and_then (slice_items 2 missing_skills) (fun key_missing =>
       Returned
         (questions
          ++ map (fun missing_skill =>
                    ("I notice "
          ++ fmt missing_skill
          ++ " isn't prominently featured on your resume but is important for this role. How would you approach learning "
          ++ fmt missing_skill
          ++ " and integrating it into your current skill set?")%string)
               key_missing)%list)
     else Returned questions) (fun questions =>
  and_then
    (if truthy strengths then
       and_then (slice_items 2 strengths) (fun items =>
       and_then (all_strs items) (fun items =>
       let strength_text := join ", " items in
       Returned
         (questions
          ++ [("Your resume highlights strengths in "
          ++ strength_text
          ++ ". Can you provide a specific example of how you've leveraged these strengths to solve a complex technical problem?")%string])%list))
     else Returned questions) (fun questions =>
  and_then
    (if truthy weaknesses then
       and_then (slice_items 2 weaknesses) (fun items =>
       and_then (all_strs items) (fun items =>
       let weakness_text := join ", " items in
       Returned
         (questions
          ++ [("Looking at areas for growth like "
          ++ weakness_text
          ++ ", how do you typically approach improving in areas where you want to develop further?")%string])%list))
     else Returned questions) (fun questions =>
  and_then
    (and_then (less_than role_fit 70) (fun low =>
     if low then
       Returned (questions ++ ["Based on your background, what aspects of this role excite you most, and how do you plan to bridge any skill gaps to excel in this position?"])%list
     else
       and_then (at_least role_fit 85) (fun high =>
       if high then
         Returned (questions ++ ["Your background seems well-aligned with this role. What unique perspective or advanced techniques would you bring to elevate the team's technical capabilities?"])%list
       else Returned questions))) (fun questions =>
  and_then
    (and_then (less_than resume_score 70) (fun low =>
     if low then
       Returned (questions ++ ["What recent projects or learning experiences have you had that might not be fully reflected on your resume but demonstrate your growth as a developer?"])%list
     else Returned questions)) (fun questions =>
  and_then
    (if truthy detected_skills then
       and_then (slice_items 1 detected_skills) (fun first =>
       match first with
       | v :: _ =>
           let primary_tech := fmt v in
           Returned
             (questions
              ++ [("Describe a time when you had to learn a new technology quickly to complement your "
          ++ primary_tech
          ++ " skills. How did you approach the learning process?")%string])%list
       | [] => Raised
       end)
     else Returned questions) (fun questions =>
  let questions :=
    if (length questions <? 3)%nat then
      (questions ++ Interview.generate_role_based_questions role)%list
    else questions in
  Returned (firstn 6 questions)))))))).

(** The endpoint; the result is the list under the ["questions"] key. *)
Definition interview_start_detailed (req : DetailedInterviewRequest)
    : outcome (list string) :=
  let role := lower (str_or_empty (target_role req)) in
  let resume_text := str_or_empty (resume_text req) in
  let resume_analysis := dict_or_empty (resume_analysis req) in
  if nonempty resume_text && negb (is_nil resume_analysis) then
    generate_detailed_resume_questions resume_text role (skills req) resume_analysis
  else if nonempty resume_text then
    Returned (Interview.generate_resume_based_questions resume_text role (skills req))
  else
    Returned (Interview.generate_role_based_questions role).

End WithFormat.

(** The shape the analysis is meant to have: the four lists are lists of
    strings or absent, the two numbers integers or absent. *)
Definition list_of_strs (v : value) : bool :=
  match v with
  | VList l => forallb (fun x => match x with VStr _ => true | _ => false end) l
  | _ => false
  end.

Definition is_int (v : value) : bool :=
  match v with
  | VInt _ => true
  | _ => false
  end.

Definition well_shaped (resume_analysis : dict) : bool :=
  list_of_strs (get_default "detectedSkills" resume_analysis (VList []))
  && list_of_strs (get_default "missingSkills" resume_analysis (VList []))
  && list_of_strs (get_default "strengths" resume_analysis (VList []))
  && list_of_strs (get_default "weaknesses" resume_analysis (VList []))
  && is_int (get_default "roleFit" resume_analysis (VInt 0))
  && is_int (get_default "score" resume_analysis (VInt 0)).

End Detailed.

(** ** The shapes of the optional fields *)

(** The shapes under which the reads of the optional fields succeed: a
    falsy value (absent, [None], [0], [False], an empty string, list or
    dict) is replaced by the default; a truthy one has to be iterable, a
    string, or convertible by [int]: an integer, a boolean, a finite
    float, or a string [int] parses. *)
Definition iterable_or_falsy (v : value) : bool :=
  negb (truthy v)
  || match v with
     | VList _ | VStr _ | VDict _ => true
     | _ => false
     end.

Definition str_or_falsy (v : value) : bool :=
  negb (truthy v)
  || match v with
     | VStr _ => true
     | _ => false
     end.

Definition int_like_or_falsy (v : value) : bool :=
  negb (truthy v)
  || match v with
     | VInt _ | VBool _ | VFloat _ => true
     | VStr s => match int_of_str s with Some _ => true | None => false end
     | _ => false
     end.

Definition well_formed_optional (req : RoadmapRequest) : bool :=
  iterable_or_falsy (get "focus" (prefs_of req))
  && str_or_falsy (get "pace" (prefs_of req))
  && int_like_or_falsy (get "availability_hours" (prefs_of req))
  && iterable_or_falsy (get "weak_topics" (interview_of req))
  && iterable_or_falsy (get "strength_topics" (interview_of req))
  && int_like_or_falsy (get "avg_score" (interview_of req)).

(** ** Requests the properties are tried on *)

(** The request of the worked example. *)
Definition example_request : RoadmapRequest :=
  {| missing := [VStr "React"; VStr "Node.js"];
     preferences := Some [ ("focus", VList [VStr "frontend"]);
                           ("pace", VStr "balanced");
                           ("availability_hours", VInt 6) ];
     interview := None |}.

(** A slow pace, written with a capital, with ample hours. *)
Definition slow_request : RoadmapRequest :=
  {| missing := [VStr "React"];
     preferences := Some [("pace", VStr "Slow"); ("availability_hours", VInt 10)];
     interview := Some [("avg_score", VInt 75); ("weak_topics", VList [VStr "React hooks"])] |}.

(** A high interview score at a fast pace with 8 hours. *)
Definition strong_request : RoadmapRequest :=
  {| missing := [VStr "React"];
     preferences := Some [("pace", VStr "fast"); ("availability_hours", VInt 8)];
     interview := Some [("avg_score", VInt 75)] |}.

(** A high interview score at a slow pace. *)
Definition slow_strong_request : RoadmapRequest :=
  {| missing := [VStr "React"];
     preferences := Some [("pace", VStr "slow")];
     interview := Some [("avg_score", VInt 75)] |}.

(** React flagged as weak by the interview. *)
Definition weak_react_request : RoadmapRequest :=
  {| missing := [VStr "Docker"; VStr " React "];
     preferences := None;
     interview := Some [("weak_topics", VList [VInt 7; VStr "REACT hooks"])] |}.

(** Optional fields of unexpected types that the reads still accept. *)
Definition odd_but_readable_request : RoadmapRequest :=
  {| missing := [VStr "AWS"; VStr "React"];
     preferences := Some [ ("focus", VList [VInt 1; VStr "Frontend"; VNone]);
                           ("pace", VInt 0);
                           ("availability_hours", VStr " 4 ") ];
     interview := Some [ ("weak_topics", VNone);
                         ("strength_topics", VList [VBool true; VStr "hooks"]);
                         ("avg_score", VBool true) ] |}.


(** A missing list whose only entry is a space. *)
Definition blank_skill_request : RoadmapRequest :=
  {| missing := [VStr " "]; preferences := None; interview := None |}.

(** ** Tactics *)

(** Membership in a list of literal tasks: refute a hypothesis, or find
    the entry. *)
Ltac refute_in H :=
  repeat (destruct H as [H | H]; [discriminate H|]); try contradiction.

Ltac find_in := repeat (first [left; reflexivity | right]).

(** ** Strings *)

Section Strings.

Lemma prefix_app (a b : string) : prefix a (a ++ b) = true.
Proof.
  induction a as [|c a IH]; simpl.
  - now destruct b.
  - destruct (ascii_dec c c) as [_|n]; [exact IH | now destruct n].
Qed.

Lemma str_in_prefix (a b : string) : prefix a b = true -> str_in a b = true.
Proof.
  intros H. destruct b; cbn [str_in]; rewrite H; reflexivity.
Qed.

Lemma str_in_app (p a q : string) : str_in a (p ++ a ++ q) = true.
Proof.
  induction p as [|c p IH]; simpl.
  - apply str_in_prefix, prefix_app.
  - rewrite IH. apply orb_true_r.
Qed.

Lemma str_in_app_l (a q : string) : str_in a (a ++ q) = true.
Proof. exact (str_in_app EmptyString a q). Qed.

Lemma mem_In (s : string) (l : list string) : mem s l = true <-> In s l.
Proof.
  unfold mem. rewrite existsb_exists. split.
  - intros [x [Hx He]]. apply String.eqb_eq in He. now subst.
  - intros H. exists s. split; [exact H | apply String.eqb_refl].
Qed.

End Strings.

(** ** The list [add_week] builds is the list of its calls *)

Section Calls.

Variables (pace : string) (hours : Z).

Lemma weeks_from_length (n : nat) (cs : list call) :
  length (weeks_from pace hours n cs) = length cs.
Proof.
  revert n. induction cs as [|c cs IH]; intros n; simpl; [|rewrite IH]; reflexivity.
Qed.

Lemma weeks_from_app (n : nat) (cs ds : list call) :
  weeks_from pace hours n (cs ++ ds)
  = (weeks_from pace hours n cs ++ weeks_from pace hours (n + length cs) ds)%list.
Proof.
  revert n. induction cs as [|c cs IH]; intros n; simpl.
  - now rewrite Nat.add_0_r.
  - rewrite IH. now rewrite Nat.add_succ_r.
Qed.

Lemma add_week_calls (cs : list call) (m : string) (t : list string) (s : string) :
  add_week pace hours m t s (weeks_from pace hours 0 cs)
  = weeks_from pace hours 0
      (cs ++ [ {| c_milestone := m; c_tasks := t; c_skill := s;
                  c_overwrite := None |} ]).
Proof.
  unfold add_week. rewrite weeks_from_app, weeks_from_length. reflexivity.
Qed.

Lemma set_last_resources_app (r : list resource) (ws : list week_plan) (w : week_plan) :
  set_last_resources r (ws ++ [w]) = (ws ++ [with_resources r w])%list.
Proof.
  induction ws as [|x ws IH]; [reflexivity|].
  change ((x :: ws) ++ [w])%list with (x :: (ws ++ [w]))%list.
  cbn [set_last_resources]. rewrite IH.
  destruct ws; reflexivity.
Qed.

Lemma set_last_resources_calls (r : list resource) (cs : list call)
    (m : string) (t : list string) (s : string) :
  set_last_resources r
    (weeks_from pace hours 0
       (cs ++ [ {| c_milestone := m; c_tasks := t; c_skill := s;
                   c_overwrite := None |} ]))
  = weeks_from pace hours 0
      (cs ++ [ {| c_milestone := m; c_tasks := t; c_skill := s;
                  c_overwrite := Some r |} ]).
Proof.
  rewrite !weeks_from_app. cbn [weeks_from].
  rewrite set_last_resources_app. reflexivity.
Qed.

Lemma skill_weeks_calls (weak_topics : list string) (cs : list call) (skill : string) :
  skill_weeks pace hours weak_topics (weeks_from pace hours 0 cs) skill
  = weeks_from pace hours 0 (cs ++ skill_calls weak_topics skill).
Proof.
  unfold skill_weeks, skill_calls.
  rewrite !add_week_calls.
  destruct (flagged_weak weak_topics skill); now rewrite <- !app_assoc.
Qed.

Lemma fold_skill_weeks_calls (weak_topics prioritized : list string) (cs : list call) :
  fold_left (skill_weeks pace hours weak_topics) prioritized (weeks_from pace hours 0 cs)
  = weeks_from pace hours 0 (cs ++ flat_map (skill_calls weak_topics) prioritized).
Proof.
  revert cs. induction prioritized as [|skill rest IH]; intros cs.
  - simpl. now rewrite app_nil_r.
  - cbn [fold_left flat_map]. rewrite skill_weeks_calls, IH.
    now rewrite <- app_assoc.
Qed.

Lemma build_weeks_calls (prioritized weak_topics strength_topics : list string)
    (avg_score : Z) :
  build_weeks pace hours prioritized weak_topics strength_topics avg_score
  = weeks_from pace hours 0
      (week_calls prioritized weak_topics strength_topics avg_score).
Proof.
  unfold build_weeks, week_calls.
  change (@nil week_plan) with (weeks_from pace hours 0 []).
  rewrite fold_skill_weeks_calls. cbn [app].
  rewrite add_week_calls, set_last_resources_calls.
  rewrite add_week_calls, set_last_resources_calls.
  now rewrite <- app_assoc.
Qed.

End Calls.

(** ** What a successful call of the endpoint has computed *)

Section Endpoint.

Lemma roadmap_nil (req : RoadmapRequest) :
  clean_missing (missing req) = [] -> roadmap req = Ok [].
Proof.
  intros H. unfold roadmap. now rewrite H.
Qed.

Lemma roadmap_Ok (req : RoadmapRequest) (plan : list week_plan) :
  roadmap req = Ok plan ->
  clean_missing (missing req) <> [] ->
  exists focus pace hours weak_topics strength_topics avg_score,
    focus_of (prefs_of req) = Ok focus
    /\ pace_of (prefs_of req) = Ok pace
    /\ hours_of (prefs_of req) = Ok hours
    /\ topics_of "weak_topics" (interview_of req) = Ok weak_topics
    /\ topics_of "strength_topics" (interview_of req) = Ok strength_topics
    /\ avg_score_of (interview_of req) = Ok avg_score
    /\ plan = weeks_from pace hours 0
                (week_calls (prioritize focus (clean_missing (missing req)))
                   weak_topics strength_topics avg_score).
Proof.
  unfold roadmap. intros H Hne.
  destruct (clean_missing (missing req)) as [|m ms] eqn:Hm; [now destruct Hne|].
  cbn [is_nil] in H.
  destruct (focus_of (prefs_of req)) as [focus|]; [|discriminate].
  destruct (pace_of (prefs_of req)) as [pace|]; [|discriminate].
  destruct (hours_of (prefs_of req)) as [hours|]; [|discriminate].
  destruct (topics_of "weak_topics" (interview_of req)) as [weak|]; [|discriminate].
  destruct (topics_of "strength_topics" (interview_of req)) as [strength|];
    [|discriminate].
  destruct (avg_score_of (interview_of req)) as [avg|]; [|discriminate].
  cbn [bind] in H. rewrite build_weeks_calls in H.
  injection H as <-.
  exists focus, pace, hours, weak, strength, avg. repeat split; reflexivity.
Qed.

Lemma roadmap_cases (req : RoadmapRequest) (plan : list week_plan) :
  roadmap req = Ok plan ->
  exists pace hours cs, plan = weeks_from pace hours 0 cs.
Proof.
  intros H.
  destruct (clean_missing (missing req)) as [|m ms] eqn:Hm.
  - rewrite (roadmap_nil req Hm) in H. injection H as <-.
    now exists EmptyString, 0%Z, [].
  - destruct (roadmap_Ok req plan H) as (f & p & h & w & s & a & E);
      [now rewrite Hm|].
    exists p, h. eexists. apply E.
Qed.

Lemma weeks_from_numbers (pace : string) (hours : Z) (n : nat) (cs : list call) :
  map week (weeks_from pace hours n cs) = map Z.of_nat (seq (S n) (length cs)).
Proof.
  revert n. induction cs as [|c cs IH]; intros n; [reflexivity|].
  cbn [weeks_from map length seq week_of_call week]. rewrite IH.
  f_equal. lia.
Qed.

End Endpoint.

(** ** The properties *)

(** C4: on missing = [React, Node.js] with focus [frontend], a balanced
    pace, 6 hours and no interview signals, the prioritized order is
    [React, Node.js] and the plan is the six weeks Foundations and Project
    for React, Foundations and Project for Node.js, the Capstone
    integrating "React, Node.js" and Assessment & Reflection, numbered 1
    to 6.  A Project week's milestone reads "Project: Build with <skill>". *)
Theorem example_plan :
  focus_of (prefs_of example_request) = Ok ["frontend"]
  /\ prioritize ["frontend"] (clean_missing (missing example_request))
     = ["React"; "Node.js"]
  /\ exists plan,
       roadmap example_request = Ok plan
       /\ map milestone plan
          = [ "Foundations: React";
              "Project: Build with React";
              "Foundations: Node.js";
              "Project: Build with Node.js";
              "Capstone: Integrate React, Node.js";
              "Assessment & Reflection" ]
       /\ map week plan = [1; 2; 3; 4; 5; 6]%Z.
Proof.
  split; [reflexivity|]. split; [reflexivity|].
  eexists. split; [vm_compute; reflexivity|].
  split; reflexivity.
Qed.

(** C5: in every plan the endpoint returns, the week numbers are exactly
    1..N, without gap or repeat, and the week at position [i] (after [i]
    earlier appends) carries the number [i + 1]. *)
Theorem week_numbers_sequential (req : RoadmapRequest) (plan : list week_plan) :
  roadmap req = Ok plan ->
  map week plan = map Z.of_nat (seq 1 (length plan))
  /\ NoDup (map week plan)
  /\ forall i w, nth_error plan i = Some w -> week w = (Z.of_nat i + 1)%Z.
Proof.
  intros H.
  destruct (roadmap_cases req plan H) as (pace & hours & cs & ->).
  assert (E : map week (weeks_from pace hours 0 cs)
              = map Z.of_nat (seq 1 (length (weeks_from pace hours 0 cs)))).
  { rewrite weeks_from_length. apply weeks_from_numbers. }
  split; [exact E|]. split.
  - rewrite E. apply Injective_map_NoDup.
    + intros a b. apply Nat2Z.inj.
    + apply seq_NoDup.
  - intros i w Hw.
    assert (Hi : nth_error (map week (weeks_from pace hours 0 cs)) i = Some (week w))
      by (now rewrite nth_error_map, Hw).
    rewrite E, nth_error_map in Hi.
    destruct (nth_error (seq 1 (length (weeks_from pace hours 0 cs))) i) as [k|] eqn:Hk;
      [|discriminate].
    injection Hi as <-.
    assert (Hlt : (i < length (weeks_from pace hours 0 cs))%nat).
    { apply nth_error_Some. now rewrite Hw. }
    rewrite nth_error_nth' with (d := 0%nat) in Hk by (now rewrite length_seq).
    injection Hk as <-. rewrite seq_nth by exact Hlt. lia.
Qed.

Lemma week_numbers_sequential_witness :
  exists plan,
    roadmap example_request = Ok plan
    /\ map week plan = map Z.of_nat (seq 1 (length plan))
    /\ NoDup (map week plan)
    /\ forall i w, nth_error plan i = Some w -> week w = (Z.of_nat i + 1)%Z.
Proof.
  eexists. split; [vm_compute; reflexivity|].
  apply (week_numbers_sequential example_request). vm_compute. reflexivity.
Defined.

(** The cleaned list is empty exactly when every entry of [missing] is the
    empty string or not a string. *)
Lemma clean_missing_nil_iff (l : list value) :
  clean_missing l = [] <-> Forall (fun m => forall s, m = VStr s -> s = EmptyString) l.
Proof.
  induction l as [|m l IH]; simpl.
  - split; [constructor | reflexivity].
  - destruct m as [ | b | z | q | s | vs | d | n | ]; simpl;
      try (rewrite IH; split;
           [ intros H; constructor; [intros s' E; discriminate E | exact H]
           | intros H; now inversion H ]).
    destruct s as [|c s]; simpl.
    + rewrite IH. split.
      * intros H. constructor; [intros s' E; now injection E as <- | exact H].
      * intros H. now inversion H.
    + split; [discriminate|].
      intros H. inversion H as [|x xs Hx Hxs]. specialize (Hx _ eq_refl). discriminate.
Qed.

(** C9: when the missing list is empty after cleaning, the endpoint
    returns the empty roadmap at once, whatever the preferences and the
    interview signals are, and raises nothing. *)
Theorem empty_missing_empty_roadmap (req : RoadmapRequest) :
  clean_missing (missing req) = [] -> roadmap req = Ok [].
Proof.
  exact (roadmap_nil req).
Qed.

Lemma empty_missing_empty_roadmap_witness :
  roadmap {| missing := [VStr EmptyString; VInt 3; VNone];
             preferences := Some [("pace", VInt 5); ("availability_hours", VStr "many")];
             interview := Some [("avg_score", VList [VNone])] |}
  = Ok [].
Proof.
  apply empty_missing_empty_roadmap. reflexivity.
Defined.

Lemma existsb_false_find {A : Type} (f : A -> bool) (l : list A) :
  existsb f l = false -> find f l = None.
Proof.
  induction l as [|a l IH]; simpl; [reflexivity|].
  destruct (f a); simpl; [discriminate | exact IH].
Qed.

Lemma resource_type_of_cases (milestone_type : string) :
  resource_type_of milestone_type = "foundations"
  \/ resource_type_of milestone_type = "project".
Proof.
  unfold resource_type_of.
  destruct (str_in "foundations" (lower milestone_type)); [now left|].
  destruct (str_in "project" (lower milestone_type)); [now right|].
  destruct (str_in "reinforcement" (lower milestone_type)); [now right | now left].
Qed.

(** C8: for a skill that no catalog key equals and none matches as a
    substring either way, case ignored (such as "Rust"), the lookup returns
    the synthesized bucket of the requested kind: exactly 3 resources, the
    URL of each containing the skill name. *)
Theorem unknown_skill_default_resources (skill milestone_type : string) :
  has_key skill skill_resources = false ->
  existsb (partial_match skill) (keys skill_resources) = false ->
  let resources := get_learning_resources skill milestone_type in
  resources = get_or (resource_type_of milestone_type) (default_resources skill) []
  /\ length resources = 3%nat
  /\ Forall (fun r => str_in skill (url r) = true) resources.
Proof.
  intros Hkey Hpart resources. subst resources.
  assert (E : get_learning_resources skill milestone_type
              = get_or (resource_type_of milestone_type) (default_resources skill) []).
  { unfold get_learning_resources, skill_key_of.
    rewrite Hkey, (existsb_false_find _ _ Hpart).
    unfold has_key in Hkey.
    destruct (lookup skill skill_resources); [discriminate | reflexivity]. }
  rewrite E. split; [reflexivity|].
  destruct (resource_type_of_cases milestone_type) as [-> | ->];
    (split; [reflexivity|]);
    cbn [get_or lookup default_resources String.eqb Ascii.eqb Bool.eqb];
    repeat constructor; cbn [url]; apply str_in_app.
Qed.

Lemma unknown_skill_default_resources_witness :
  let resources := get_learning_resources "Rust" "Project: Build with Rust" in
  resources = get_or (resource_type_of "Project: Build with Rust")
                (default_resources "Rust") []
  /\ length resources = 3%nat
  /\ Forall (fun r => str_in "Rust" (url r) = true) resources.
Proof.
  apply (unknown_skill_default_resources "Rust" "Project: Build with Rust");
    reflexivity.
Defined.

(** ** Pacing *)

Lemma In_firstn_In {A : Type} (n : nat) (l : list A) (x : A) :
  In x (firstn n l) -> In x l.
Proof.
  revert l. induction n as [|n IH]; intros [|a l]; simpl; try tauto.
  intros [E | H]; [now left | right; now apply IH].
Qed.

Section Pacing.

Variables (pace : string) (hours : Z).

Lemma truncated_dec :
  (pace = "slow" \/ (hours < 5)%Z) \/ (pace <> "slow" /\ (5 <= hours)%Z).
Proof.
  destruct (string_dec pace "slow") as [E|N]; [now left; left|].
  destruct (Z_lt_le_dec hours 5); [left; now right | right; now split].
Qed.

Lemma adjust_tasks_slow (t : list string) :
  pace = "slow" \/ (hours < 5)%Z ->
  adjust_tasks pace hours t = (firstn 2 t ++ [reflect_task])%list.
Proof.
  unfold adjust_tasks. intros [-> | H].
  - reflexivity.
  - replace (8 <=? hours)%Z with false by (symmetry; apply Z.leb_gt; lia).
    replace (hours <? 5)%Z with true by (symmetry; apply Z.ltb_lt; lia).
    now rewrite andb_false_r, orb_true_r.
Qed.

Lemma adjust_tasks_not_slow (t : list string) :
  pace <> "slow" -> (5 <= hours)%Z ->
  adjust_tasks pace hours t = t
  \/ adjust_tasks pace hours t = (t ++ [stretch_goal_task])%list.
Proof.
  unfold adjust_tasks. intros N H.
  destruct ((pace =? "fast") && (8 <=? hours)%Z); [now right|].
  apply String.eqb_neq in N. rewrite N.
  replace (hours <? 5)%Z with false by (symmetry; apply Z.ltb_ge; lia).
  now left.
Qed.

Lemma adjust_tasks_In (t : list string) (x : string) :
  In x (adjust_tasks pace hours t) ->
  In x t \/ x = stretch_goal_task \/ x = reflect_task.
Proof.
  destruct truncated_dec as [S | [N H]].
  - rewrite (adjust_tasks_slow t S). intros Hx.
    apply in_app_or in Hx. destruct Hx as [Hx | [<- | []]].
    + left. now apply In_firstn_In in Hx.
    + right. now right.
  - destruct (adjust_tasks_not_slow t N H) as [-> | ->]; [now left|].
    intros Hx. apply in_app_or in Hx. destruct Hx as [Hx | [<- | []]].
    + now left.
    + right. now left.
Qed.

End Pacing.

(** ** The weeks of a plan and the calls they come from *)

Section Weeks.

Variables (pace : string) (hours : Z).

Lemma nth_error_weeks_from (n i : nat) (cs : list call) :
  nth_error (weeks_from pace hours n cs) i
  = option_map (week_of_call pace hours (n + i)) (nth_error cs i).
Proof.
  revert n i. induction cs as [|c cs IH]; intros n i.
  - now destruct i.
  - destruct i as [|i]; simpl.
    + now rewrite Nat.add_0_r.
    + rewrite IH. now rewrite Nat.add_succ_r.
Qed.

Lemma In_weeks_from (n : nat) (cs : list call) (w : week_plan) :
  In w (weeks_from pace hours n cs) ->
  exists c k, In c cs /\ w = week_of_call pace hours k c.
Proof.
  revert n. induction cs as [|c cs IH]; intros n; simpl; [intros []|].
  intros [<- | H].
  - exists c, n. split; [now left | reflexivity].
  - destruct (IH _ H) as (c' & k & Hc & E). exists c', k. split; [now right | exact E].
Qed.

Lemma skill_calls_site (weak_topics : list string) (skill : string) (c : call) :
  In c (skill_calls weak_topics skill) ->
  c_overwrite c = None /\ c_skill c = skill
  /\ (c_milestone c = "Foundations: " ++ skill /\ c_tasks c = foundations_tasks skill
      \/ c_milestone c = "Project: Build with " ++ skill /\ c_tasks c = project_tasks skill
      \/ flagged_weak weak_topics skill = true
         /\ c_milestone c = "Reinforcement: " ++ skill
         /\ c_tasks c = reinforcement_tasks skill).
Proof.
  unfold skill_calls. intros H.
  apply in_app_or in H. destruct H as [[<- | [<- | []]] | H].
  - repeat split. left. now split.
  - repeat split. right. left. now split.
  - destruct (flagged_weak weak_topics skill); [|destruct H].
    destruct H as [<- | []]. repeat split. right. right. repeat split.
Qed.

Lemma week_calls_site (prioritized weak_topics strength_topics : list string)
    (avg_score : Z) (c : call) :
  In c (week_calls prioritized weak_topics strength_topics avg_score) ->
  call_site (c_milestone c) (c_tasks c).
Proof.
  unfold week_calls. intros H.
  apply in_app_or in H. destruct H as [H | [<- | [<- | []]]].
  - apply in_flat_map in H. destruct H as (skill & _ & H).
    destruct (skill_calls_site _ _ _ H) as (_ & _ & [[-> ->] | [[-> ->] | (_ & -> & ->)]]);
      constructor.
  - apply site_capstone.
  - apply site_assessment.
Qed.

(** No call site passes a list shorter than three, so a truncated list
    has two entries before the reflection task. *)
Lemma call_site_truncated (m : string) (base : list string) :
  call_site m base -> length (firstn 2 base ++ [reflect_task])%list = 3%nat.
Proof.
  intros H. destruct H; reflexivity.
Qed.

End Weeks.

(** C6: when the pace is slow, or fewer than 5 hours are available, every
    week of the plan, the Capstone and Assessment weeks included, has as
    its task list the first two tasks its call site passed followed by the
    reflection task: three tasks. *)
Theorem slow_pace_three_tasks (req : RoadmapRequest) (plan : list week_plan)
    (pace : string) (hours : Z) :
  roadmap req = Ok plan ->
  pace_of (prefs_of req) = Ok pace ->
  hours_of (prefs_of req) = Ok hours ->
  pace = "slow" \/ (hours < 5)%Z ->
  Forall (fun w =>
            exists base,
              call_site (milestone w) base
              /\ tasks w = (firstn 2 base ++ [reflect_task])%list
              /\ length (tasks w) = 3%nat) plan.
Proof.
  intros Hplan Hpace Hhours Hslow.
  destruct (clean_missing (missing req)) as [|m ms] eqn:Hm.
  - rewrite (roadmap_nil req Hm) in Hplan. injection Hplan as <-. constructor.
  - destruct (roadmap_Ok req plan Hplan) as (f & p & h & wk & st & a & _ & Ep & Eh & _ & _ & _ & ->);
      [now rewrite Hm|].
    rewrite Hpace in Ep. injection Ep as <-.
    rewrite Hhours in Eh. injection Eh as <-.
    apply Forall_forall. intros w Hw.
    destruct (In_weeks_from _ _ _ _ _ Hw) as (c & k & Hc & ->).
    apply week_calls_site in Hc.
    exists (c_tasks c). cbn [milestone tasks week_of_call].
    rewrite (adjust_tasks_slow pace hours _ Hslow).
    split; [exact Hc|]. split; [reflexivity|].
    exact (call_site_truncated _ _ Hc).
Qed.

Lemma slow_pace_three_tasks_witness :
  exists plan,
    roadmap slow_request = Ok plan
    /\ length plan = 5%nat
    /\ Forall (fun w =>
                 exists base,
                   call_site (milestone w) base
                   /\ tasks w = (firstn 2 base ++ [reflect_task])%list
                   /\ length (tasks w) = 3%nat) plan.
Proof.
  eexists. split; [vm_compute; reflexivity|]. split; [reflexivity|].
  apply (slow_pace_three_tasks slow_request _ "slow" 10%Z).
  - vm_compute. reflexivity.
  - reflexivity.
  - reflexivity.
  - left. reflexivity.
Defined.

(** ** The Capstone week *)

Section Capstone.

Lemma stretch_in_capstone (avg_score : Z) :
  In stretch_task (capstone_tasks avg_score) <-> (70 <= avg_score)%Z.
Proof.
  unfold capstone_tasks, stretch_task, scope_down_task.
  destruct (Z.leb_spec 70 avg_score); destruct (Z.ltb_spec avg_score 50);
    cbn [app In]; split; intros Hin; try lia; try (now find_in); now refute_in Hin.
Qed.

Lemma scope_down_in_capstone (avg_score : Z) :
  In scope_down_task (capstone_tasks avg_score) <-> (avg_score < 50)%Z.
Proof.
  unfold capstone_tasks, stretch_task, scope_down_task.
  destruct (Z.leb_spec 70 avg_score); destruct (Z.ltb_spec avg_score 50);
    cbn [app In]; split; intros Hin; try lia; try (now find_in); now refute_in Hin.
Qed.

(** Truncation keeps the first two fixed tasks only. *)
Lemma truncated_capstone (avg_score : Z) (x : string) :
  x = stretch_task \/ x = scope_down_task ->
  ~ In x (firstn 2 (capstone_tasks avg_score) ++ [reflect_task])%list.
Proof.
  unfold capstone_tasks, stretch_task, scope_down_task, reflect_task.
  cbn [app firstn In]. intros [-> | ->] H; now refute_in H.
Qed.

Lemma adjusted_capstone (pace : string) (hours : Z) (avg_score : Z) (x : string) :
  x = stretch_task \/ x = scope_down_task ->
  In x (adjust_tasks pace hours (capstone_tasks avg_score))
  <-> In x (capstone_tasks avg_score) /\ pace <> "slow" /\ (5 <= hours)%Z.
Proof.
  intros Hx.
  destruct (truncated_dec pace hours) as [S | [N H]].
  - rewrite (adjust_tasks_slow pace hours _ S). split.
    + intros Hin. now destruct (truncated_capstone avg_score x Hx).
    + intros (_ & N & H). destruct S as [S | S]; [now destruct N | lia].
  - split.
    + intros Hin. split; [|now split].
      destruct (adjust_tasks_In _ _ _ _ Hin) as [Ht | [E | E]]; [exact Ht | |];
        destruct Hx as [-> | ->]; discriminate E.
    + intros (Hin & _ & _).
      destruct (adjust_tasks_not_slow pace hours (capstone_tasks avg_score) N H)
        as [-> | ->]; [exact Hin | apply in_or_app; now left].
Qed.

Variables (prioritized weak_topics strength_topics : list string) (avg_score : Z).

Lemma week_calls_length :
  length (week_calls prioritized weak_topics strength_topics avg_score)
  = (length (flat_map (skill_calls weak_topics) prioritized) + 2)%nat.
Proof.
  unfold week_calls. now rewrite length_app.
Qed.

Lemma capstone_position :
  nth_error (week_calls prioritized weak_topics strength_topics avg_score) (length (week_calls prioritized weak_topics strength_topics avg_score) - 2) = Some (capstone_call prioritized avg_score).
Proof.
  rewrite week_calls_length. unfold week_calls.
  rewrite nth_error_app2 by lia.
  now replace (_ + 2 - 2 - _)%nat with 0%nat by lia.
Qed.

Lemma capstone_only (i : nat) (c : call) :
  nth_error (week_calls prioritized weak_topics strength_topics avg_score) i = Some c ->
  prefix "Capstone: Integrate " (c_milestone c) = true ->
  i = (length (week_calls prioritized weak_topics strength_topics avg_score) - 2)%nat.
Proof.
  rewrite week_calls_length. unfold week_calls. intros Hc Hp.
  destruct (Nat.lt_ge_cases i (length (flat_map (skill_calls weak_topics) prioritized)))
    as [Hlt | Hge].
  - rewrite nth_error_app1 in Hc by exact Hlt.
    apply nth_error_In, in_flat_map in Hc. destruct Hc as (skill & _ & Hc).
    destruct (skill_calls_site _ _ _ Hc) as (_ & _ & [[E _] | [[E _] | (_ & E & _)]]);
      rewrite E in Hp; discriminate Hp.
  - rewrite nth_error_app2 in Hc by exact Hge.
    remember (i - length (flat_map (skill_calls weak_topics) prioritized))%nat as j eqn:Ej.
    destruct j as [|[|j]].
    + lia.
    + injection Hc as <-. discriminate Hp.
    + now destruct j.
Qed.

End Capstone.

(** Every week of a returned plan was appended by one of the five call
    sites, and holds that site's tasks after the pacing adjustment. *)
Lemma plan_week_site (req : RoadmapRequest) (plan : list week_plan) (w : week_plan) :
  roadmap req = Ok plan ->
  In w plan ->
  exists pace hours base,
    pace_of (prefs_of req) = Ok pace
    /\ hours_of (prefs_of req) = Ok hours
    /\ call_site (milestone w) base
    /\ tasks w = adjust_tasks pace hours base.
Proof.
  intros Hplan Hw.
  destruct (clean_missing (missing req)) as [|m ms] eqn:Hm.
  - rewrite (roadmap_nil req Hm) in Hplan. injection Hplan as <-. destruct Hw.
  - destruct (roadmap_Ok req plan Hplan)
      as (f & p & h & wk & st & a & _ & Ep & Eh & _ & _ & _ & ->);
      [now rewrite Hm|].
    destruct (In_weeks_from _ _ _ _ _ Hw) as (c & k & Hc & ->).
    exists p, h, (c_tasks c). repeat split; try assumption.
    exact (week_calls_site _ _ _ _ _ Hc).
Qed.

Lemma call_site_not_both (m : string) (base : list string) :
  call_site m base ->
  ~ (In stretch_task base /\ In scope_down_task base).
Proof.
  intros H [Hs Hd]. destruct H.
  - cbn in Hs. unfold stretch_task in Hs. now refute_in Hs.
  - cbn in Hs. unfold stretch_task in Hs. now refute_in Hs.
  - cbn in Hs. unfold stretch_task in Hs. now refute_in Hs.
  - apply stretch_in_capstone in Hs. apply scope_down_in_capstone in Hd. lia.
  - cbn in Hs. unfold stretch_task in Hs. now refute_in Hs.
Qed.

Lemma week_not_both (req : RoadmapRequest) (plan : list week_plan) (w : week_plan) :
  roadmap req = Ok plan ->
  In w plan ->
  ~ (In stretch_task (tasks w) /\ In scope_down_task (tasks w)).
Proof.
  intros Hplan Hw [Hs Hd].
  destruct (plan_week_site req plan w Hplan Hw) as (p & h & base & _ & _ & Hsite & E).
  rewrite E in Hs, Hd.
  apply (call_site_not_both _ _ Hsite). split.
  - destruct (adjust_tasks_In _ _ _ _ Hs) as [H | [H | H]]; [exact H | |]; discriminate H.
  - destruct (adjust_tasks_In _ _ _ _ Hd) as [H | [H | H]]; [exact H | |]; discriminate H.
Qed.

(** C1, as the code has it: the Capstone week is the week before the last,
    the only one whose milestone begins "Capstone: Integrate ".  Its task
    list holds the stretch task exactly when avg_score >= 70 and the list
    is not truncated (the pace is not slow and hours >= 5), and the
    scope-down task exactly when avg_score < 50 and the list is not
    truncated; so with avg_score = 60 it holds neither, whatever the
    preferences. *)
Theorem capstone_score_tasks (req : RoadmapRequest) (plan : list week_plan)
    (pace : string) (hours avg_score : Z) :
  roadmap req = Ok plan ->
  clean_missing (missing req) <> [] ->
  pace_of (prefs_of req) = Ok pace ->
  hours_of (prefs_of req) = Ok hours ->
  avg_score_of (interview_of req) = Ok avg_score ->
  exists capstone,
    nth_error plan (length plan - 2) = Some capstone
    /\ prefix "Capstone: Integrate " (milestone capstone) = true
    /\ (forall i w, nth_error plan i = Some w ->
                    prefix "Capstone: Integrate " (milestone w) = true ->
                    w = capstone)
    /\ (In stretch_task (tasks capstone)
        <-> (70 <= avg_score)%Z /\ pace <> "slow" /\ (5 <= hours)%Z)
    /\ (In scope_down_task (tasks capstone)
        <-> (avg_score < 50)%Z /\ pace <> "slow" /\ (5 <= hours)%Z).
Proof.
  intros Hplan Hne Hpace Hhours Havg.
  destruct (roadmap_Ok req plan Hplan Hne)
    as (f & p & h & wk & st & a & _ & Ep & Eh & _ & _ & Ea & ->).
  rewrite Hpace in Ep. injection Ep as <-.
  rewrite Hhours in Eh. injection Eh as <-.
  rewrite Havg in Ea. injection Ea as <-.
  set (prioritized := prioritize f (clean_missing (missing req))).
  set (calls := week_calls prioritized wk st avg_score).
  rewrite weeks_from_length.
  exists (week_of_call pace hours (length calls - 2) (capstone_call prioritized avg_score)).
  split.
  { rewrite nth_error_weeks_from. unfold calls. now rewrite capstone_position. }
  split; [apply prefix_app|]. split.
  { intros i w Hw Hp. rewrite nth_error_weeks_from in Hw.
    destruct (nth_error calls i) as [c|] eqn:Hc; [|discriminate].
    injection Hw as <-. cbn [milestone week_of_call] in Hp.
    pose proof (capstone_only _ _ _ _ _ _ Hc Hp) as ->.
    unfold calls in Hc. rewrite capstone_position in Hc. now injection Hc as <-. }
  cbn [tasks week_of_call capstone_call c_tasks].
  split.
  - rewrite adjusted_capstone by now left. now rewrite stretch_in_capstone.
  - rewrite adjusted_capstone by now right. now rewrite scope_down_in_capstone.
Qed.

Lemma capstone_score_tasks_witness :
  exists plan,
    roadmap strong_request = Ok plan
    /\ exists capstone,
         nth_error plan (length plan - 2) = Some capstone
         /\ prefix "Capstone: Integrate " (milestone capstone) = true
         /\ (forall i w, nth_error plan i = Some w ->
                         prefix "Capstone: Integrate " (milestone w) = true ->
                         w = capstone)
         /\ (In stretch_task (tasks capstone)
             <-> (70 <= 75)%Z /\ "fast" <> "slow" /\ (5 <= 8)%Z)
         /\ (In scope_down_task (tasks capstone)
             <-> (75 < 50)%Z /\ "fast" <> "slow" /\ (5 <= 8)%Z).
Proof.
  eexists. split; [vm_compute; reflexivity|].
  apply (capstone_score_tasks strong_request _ "fast" 8%Z 75%Z).
  - vm_compute. reflexivity.
  - vm_compute. discriminate.
  - reflexivity.
  - reflexivity.
  - reflexivity.
Defined.

(** C1 as stated fails: with a slow pace the Capstone list is cut to its
    first two tasks, and the stretch task of avg_score = 75 is lost. *)
Lemma capstone_stretch_lost_when_slow :
  exists plan capstone,
    roadmap slow_strong_request = Ok plan
    /\ clean_missing (missing slow_strong_request) = ["React"]
    /\ avg_score_of (interview_of slow_strong_request) = Ok 75%Z
    /\ nth_error plan (length plan - 2) = Some capstone
    /\ milestone capstone = "Capstone: Integrate React"
    /\ tasks capstone
       = [ "Plan a portfolio-level project combining the learned skills";
           "Implement core features, focusing on clean architecture";
           reflect_task ]
    /\ ~ In stretch_task (tasks capstone).
Proof.
  eexists. eexists.
  split; [vm_compute; reflexivity|].
  split; [reflexivity|]. split; [reflexivity|].
  split; [vm_compute; reflexivity|].
  split; [reflexivity|]. split; [reflexivity|].
  cbn. unfold stretch_task. intros H. now refute_in H.
Qed.

(** C3, as the code has it: the two conditions exclude each other, so no
    week of any plan, the Capstone week included, holds both the stretch
    task and the scope-down task. *)
Theorem stretch_and_scope_down_exclusive (req : RoadmapRequest)
    (plan : list week_plan) (w : week_plan) :
  roadmap req = Ok plan ->
  In w plan ->
  ~ (In stretch_task (tasks w) /\ In scope_down_task (tasks w)).
Proof.
  exact (week_not_both req plan w).
Qed.

Lemma stretch_and_scope_down_exclusive_witness :
  exists plan,
    roadmap strong_request = Ok plan
    /\ match nth_error plan 2 with
       | Some w =>
           In w plan
           /\ In stretch_task (tasks w)
           /\ ~ (In stretch_task (tasks w) /\ In scope_down_task (tasks w))
       | None => False
       end.
Proof.
  eexists. split; [vm_compute; reflexivity|].
  cbn [nth_error]. split; [now find_in|]. split; [now find_in|].
  eapply (stretch_and_scope_down_exclusive strong_request).
  - vm_compute. reflexivity.
  - now find_in.
Defined.

(** C3 as stated fails: no request makes both appends happen. *)
Lemma no_request_appends_both :
  ~ exists (req : RoadmapRequest) (plan : list week_plan) (w : week_plan),
      roadmap req = Ok plan
      /\ clean_missing (missing req) <> []
      /\ In w plan
      /\ In stretch_task (tasks w)
      /\ In scope_down_task (tasks w).
Proof.
  intros (req & plan & w & Hplan & _ & Hw & Hs & Hd).
  exact (week_not_both req plan w Hplan Hw (conj Hs Hd)).
Qed.

(** ** Reinforcement weeks *)

Section Reinforcement.

(** Every cleaned skill is in the prioritized list. *)
Lemma append_rest_In (l acc : list string) (x : string) :
  In x acc \/ In x l ->
  In x (fold_left
          (fun prioritized s =>
             if negb (mem s prioritized) then (prioritized ++ [s])%list else prioritized)
          l acc).
Proof.
  revert acc. induction l as [|s l IH]; intros acc H; cbn [fold_left].
  - destruct H as [H | []]. exact H.
  - apply IH. destruct H as [H | [<- | H]].
    + left. destruct (negb (mem s acc)); [apply in_or_app; now left | exact H].
    + left. destruct (mem s acc) eqn:E; cbn [negb].
      * now apply mem_In.
      * apply in_or_app. right. now left.
    + now right.
Qed.

Lemma prioritize_complete (focus missing : list string) (x : string) :
  In x missing -> In x (prioritize focus missing).
Proof.
  intros H. unfold prioritize. apply append_rest_In. now right.
Qed.

Variables (pace : string) (hours : Z) (weak_topics : list string).

Lemma In_weeks_from_call (n : nat) (cs : list call) (c : call) :
  In c cs -> exists k, In (week_of_call pace hours k c) (weeks_from pace hours n cs).
Proof.
  revert n. induction cs as [|d cs IH]; intros n; [intros []|].
  intros [-> | H].
  - exists n. now left.
  - destruct (IH (S n) H) as [k Hk]. exists k. now right.
Qed.

(** A Reinforcement call comes right after the Project call of the same
    skill. *)
Lemma reinforcement_after_project (prioritized : list string) (skill : string)
    (i : nat) (c : call) :
  nth_error (flat_map (skill_calls weak_topics) prioritized) i = Some c ->
  c_milestone c = "Reinforcement: " ++ skill ->
  c_skill c = skill /\ c_overwrite c = None
  /\ exists j p,
       i = S j
       /\ nth_error (flat_map (skill_calls weak_topics) prioritized) j = Some p
       /\ c_milestone p = "Project: Build with " ++ skill.
Proof.
  revert i. induction prioritized as [|s rest IH]; intros i Hc Hm.
  - now destruct i.
  - cbn [flat_map] in *. unfold skill_calls in Hc |- * at 1.
    cbn [app] in Hc |- *.
    destruct i as [|[|i]].
    + injection Hc as <-. discriminate Hm.
    + injection Hc as <-. discriminate Hm.
    + cbn [nth_error] in Hc |- *.
      destruct (flagged_weak weak_topics s); cbn [app] in Hc |- *.
      * destruct i as [|i].
        -- injection Hc as <-. cbn in Hm. injection Hm as ->.
           repeat split. exists 1%nat. eexists. repeat split.
        -- cbn [nth_error] in Hc.
           destruct (IH _ Hc Hm) as (Es & Eo & j & p & -> & Hp & Ep).
           repeat split; try assumption.
           exists (S (S (S j))), p. repeat split; assumption.
      * destruct (IH _ Hc Hm) as (Es & Eo & j & p & -> & Hp & Ep).
        repeat split; try assumption.
        exists (S (S j)), p. repeat split; assumption.
Qed.

End Reinforcement.

(** C7: when the cleaned missing list contains "React", the plan has a
    "Reinforcement: React" week if and only if some weak topic contains
    "react", case ignored; such a week comes right after the week
    "Project: Build with React" and carries the project bucket of React. *)
Theorem react_reinforcement (req : RoadmapRequest) (plan : list week_plan)
    (weak_topics : list string) :
  roadmap req = Ok plan ->
  In "React" (clean_missing (missing req)) ->
  topics_of "weak_topics" (interview_of req) = Ok weak_topics ->
  ((exists w, In w plan /\ milestone w = "Reinforcement: React")
   <-> (exists t, In t weak_topics /\ str_in "react" (lower t) = true))
  /\ forall i w,
       nth_error plan i = Some w ->
       milestone w = "Reinforcement: React" ->
       (exists buckets,
           lookup "React" skill_resources = Some buckets
           /\ lookup "project" buckets = Some (learning_resources w))
       /\ exists j p,
            i = S j
            /\ nth_error plan j = Some p
            /\ milestone p = "Project: Build with React".
Proof.
  intros Hplan Hreact Hweak.
  assert (Hne : clean_missing (missing req) <> []).
  { intros E. rewrite E in Hreact. destruct Hreact. }
  destruct (roadmap_Ok req plan Hplan Hne)
    as (f & p & h & wk & st & a & _ & _ & _ & Ew & _ & _ & ->).
  rewrite Hweak in Ew. injection Ew as <-.
  set (prioritized := prioritize f (clean_missing (missing req))).
  split; [split|].
  - intros (w & Hw & Hm).
    destruct (In_weeks_from _ _ _ _ _ Hw) as (c & k & Hc & ->).
    cbn [milestone week_of_call] in Hm.
    unfold week_calls in Hc. apply in_app_or in Hc.
    destruct Hc as [Hc | [<- | [<- | []]]]; try discriminate Hm.
    apply in_flat_map in Hc. destruct Hc as (skill & _ & Hc).
    destruct (skill_calls_site _ _ _ Hc) as (_ & _ & [[E _] | [[E _] | (Hf & E & _)]]);
      rewrite E in Hm; try discriminate Hm.
    cbn in Hm. injection Hm as ->.
    unfold flagged_weak in Hf. apply existsb_exists in Hf. exact Hf.
  - intros Ht.
    assert (Hf : flagged_weak weak_topics "React" = true).
    { unfold flagged_weak. apply existsb_exists. exact Ht. }
    assert (Hc : In {| c_milestone := "Reinforcement: React";
                       c_tasks := reinforcement_tasks "React";
                       c_skill := "React"; c_overwrite := None |}
                    (week_calls prioritized weak_topics st a)).
    { unfold week_calls. apply in_or_app. left.
      apply in_flat_map. exists "React". split.
      - now apply prioritize_complete.
      - unfold skill_calls. rewrite Hf. cbn. now find_in. }
    destruct (In_weeks_from_call p h 0 _ _ Hc) as [k Hk].
    eexists. split; [exact Hk | reflexivity].
  - intros i w Hw Hm.
    rewrite nth_error_weeks_from in Hw.
    destruct (nth_error (week_calls prioritized weak_topics st a) i) as [c|] eqn:Hc;
      [|discriminate].
    injection Hw as <-. cbn [milestone week_of_call] in Hm.
    unfold week_calls in Hc.
    destruct (Nat.lt_ge_cases i (length (flat_map (skill_calls weak_topics) prioritized)))
      as [Hlt | Hge].
    + rewrite nth_error_app1 in Hc by exact Hlt.
      destruct (reinforcement_after_project weak_topics prioritized "React" i c Hc Hm)
        as (Es & Eo & j & q & -> & Hq & Eq).
      split.
      * eexists. split; [reflexivity|].
        cbn [learning_resources week_of_call]. rewrite Eo, Es, Hm. reflexivity.
      * exists j, (week_of_call p h j q). split; [reflexivity|]. split; [|exact Eq].
        rewrite nth_error_weeks_from. unfold week_calls.
        rewrite nth_error_app1 by lia. now rewrite Hq.
    + rewrite nth_error_app2 in Hc by exact Hge.
      destruct (i - length (flat_map (skill_calls weak_topics) prioritized))%nat
        as [|[|k]].
      * injection Hc as <-. discriminate Hm.
      * injection Hc as <-. discriminate Hm.
      * now destruct k.
Qed.

Lemma react_reinforcement_witness :
  exists plan,
    roadmap weak_react_request = Ok plan
    /\ map milestone plan
       = [ "Foundations: Docker"; "Project: Build with Docker";
           "Foundations: React"; "Project: Build with React";
           "Reinforcement: React";
           "Capstone: Integrate Docker, React"; "Assessment & Reflection" ]
    /\ ((exists w, In w plan /\ milestone w = "Reinforcement: React")
        <-> (exists t, In t ["REACT hooks"] /\ str_in "react" (lower t) = true))
    /\ forall i w,
         nth_error plan i = Some w ->
         milestone w = "Reinforcement: React" ->
         (exists buckets,
             lookup "React" skill_resources = Some buckets
             /\ lookup "project" buckets = Some (learning_resources w))
         /\ exists j p,
              i = S j
              /\ nth_error plan j = Some p
              /\ milestone p = "Project: Build with React".
Proof.
  eexists. split; [vm_compute; reflexivity|]. split; [reflexivity|].
  apply (react_reinforcement weak_react_request _ ["REACT hooks"]).
  - vm_compute. reflexivity.
  - right. left. reflexivity.
  - reflexivity.
Defined.

(** ** Malformed optional fields *)

Section Reads.

Lemma iter_or_empty (v : value) :
  iterable_or_falsy v = true ->
  exists items,
    iter (or_else v (VList [])) = Ok items
    /\ (truthy v = false -> items = [])
    /\ (forall l, v = VList l -> items = l).
Proof.
  unfold iterable_or_falsy, or_else. intros H.
  destruct v as [ | b | z | q | s | l | d | n | ]; cbn [truthy] in *.
  - exists []. repeat split. intros l E. discriminate E.
  - destruct b; [discriminate H|]. exists []. repeat split. intros l E. discriminate E.
  - destruct (z =? 0)%Z; [|discriminate H]. exists []. repeat split.
    intros l E. discriminate E.
  - destruct (Qnum q =? 0)%Z; [|discriminate H]. exists []. repeat split.
    intros l E. discriminate E.
  - destruct s as [|c s]; cbn [nonempty].
    + exists []. repeat split. intros l E. discriminate E.
    + eexists. split; [reflexivity|]. split; [discriminate|]. intros l E. discriminate E.
  - destruct l as [|x l]; cbn [is_nil negb].
    + exists []. repeat split. intros l E. now injection E as <-.
    + eexists. split; [reflexivity|]. split; [discriminate|].
      intros l' E. now injection E as <-.
  - destruct d as [|x d]; cbn [is_nil negb].
    + exists []. repeat split. intros l E. discriminate E.
    + eexists. split; [reflexivity|]. split; [discriminate|]. intros l E. discriminate E.
  - discriminate H.
  - discriminate H.
Qed.

Lemma lower_or_default (v : value) (default : string) :
  str_or_falsy v = true ->
  exists s,
    call_lower (or_else v (VStr default)) = Ok s
    /\ (truthy v = false -> s = lower default).
Proof.
  unfold str_or_falsy, or_else. intros H.
  destruct v as [ | b | z | q | s | l | d | n | ]; cbn [truthy] in *;
    try (destruct (truthy _); discriminate H).
  - now exists (lower default).
  - destruct b; [discriminate H|]. now exists (lower default).
  - destruct (z =? 0)%Z; [|discriminate H]. now exists (lower default).
  - destruct (Qnum q =? 0)%Z; [|discriminate H]. now exists (lower default).
  - destruct s as [|c s]; cbn [nonempty].
    + now exists (lower default).
    + eexists. split; [reflexivity | discriminate].
  - destruct l; [|discriminate H]. now exists (lower default).
  - destruct d; [|discriminate H]. now exists (lower default).
  - discriminate H.
  - discriminate H.
Qed.

Lemma int_or_default (v : value) (default : Z) :
  int_like_or_falsy v = true ->
  exists z,
    int (or_else v (VInt default)) = Ok z
    /\ (truthy v = false -> z = default).
Proof.
  unfold int_like_or_falsy, or_else. intros H.
  destruct v as [ | b | z | q | s | l | d | n | ]; cbn [truthy] in *.
  - now exists default.
  - destruct b; [|now exists default]. eexists. split; [reflexivity | discriminate].
  - destruct (z =? 0)%Z; cbn [negb]; [now exists default|].
    eexists. split; [reflexivity | discriminate].
  - destruct (Qnum q =? 0)%Z; cbn [negb]; [now exists default|].
    eexists. split; [reflexivity | discriminate].
  - destruct s as [|c s]; cbn [nonempty] in *; [now exists default|].
    cbn [negb orb] in H. cbn [int].
    destruct (int_of_str (String c s)) as [z|]; [|discriminate H].
    exists z. split; [reflexivity | discriminate].
  - destruct l; [|discriminate H]. now exists default.
  - destruct d; [|discriminate H]. now exists default.
  - discriminate H.
  - discriminate H.
Qed.

End Reads.

(** C2, as the code has it: when every optional field is falsy (absent
    included) or of a shape its read accepts, the endpoint raises nothing
    and returns a plan; a falsy field takes its default (pace balanced,
    6 hours, avg_score 0, no topics) and the non-string entries of a list
    are dropped. *)
Theorem well_formed_request_returns (req : RoadmapRequest) :
  well_formed_optional req = true ->
  exists focus pace hours weak_topics strength_topics avg_score,
    roadmap req
    = Ok (if is_nil (clean_missing (missing req)) then []
          else build_weeks pace hours
                 (prioritize focus (clean_missing (missing req)))
                 weak_topics strength_topics avg_score)
    /\ (focus_of (prefs_of req) = Ok focus
        /\ pace_of (prefs_of req) = Ok pace
        /\ hours_of (prefs_of req) = Ok hours
        /\ topics_of "weak_topics" (interview_of req) = Ok weak_topics
        /\ topics_of "strength_topics" (interview_of req) = Ok strength_topics
        /\ avg_score_of (interview_of req) = Ok avg_score)
    /\ ((truthy (get "focus" (prefs_of req)) = false -> focus = [])
        /\ (truthy (get "pace" (prefs_of req)) = false -> pace = "balanced")
        /\ (truthy (get "availability_hours" (prefs_of req)) = false -> hours = 6%Z)
        /\ (truthy (get "weak_topics" (interview_of req)) = false -> weak_topics = [])
        /\ (truthy (get "strength_topics" (interview_of req)) = false
            -> strength_topics = [])
        /\ (truthy (get "avg_score" (interview_of req)) = false -> avg_score = 0%Z))
    /\ ((forall l, get "focus" (prefs_of req) = VList l -> focus = map lower (strs l))
        /\ (forall l, get "weak_topics" (interview_of req) = VList l
                      -> weak_topics = strs l)
        /\ (forall l, get "strength_topics" (interview_of req) = VList l
                      -> strength_topics = strs l)).
Proof.
  unfold well_formed_optional. intros H.
  repeat (apply andb_prop in H; destruct H as [H ?]).
  destruct (iter_or_empty _ H) as (fi & Ef & Ff & Lf).
  destruct (lower_or_default _ "balanced" H4) as (pace & Ep & Fp).
  destruct (int_or_default _ 6%Z H3) as (hours & Eh & Fh).
  destruct (iter_or_empty _ H2) as (wi & Ew & Fw & Lw).
  destruct (iter_or_empty _ H1) as (si & Es & Fs & Ls).
  destruct (int_or_default _ 0%Z H0) as (avg & Ea & Fa).
  assert (Rf : focus_of (prefs_of req) = Ok (map lower (strs fi)))
    by (unfold focus_of; now rewrite Ef).
  assert (Rw : topics_of "weak_topics" (interview_of req) = Ok (strs wi))
    by (unfold topics_of; now rewrite Ew).
  assert (Rs : topics_of "strength_topics" (interview_of req) = Ok (strs si))
    by (unfold topics_of; now rewrite Es).
  exists (map lower (strs fi)), pace, hours, (strs wi), (strs si), avg.
  split.
  { unfold roadmap. destruct (is_nil (clean_missing (missing req))); [reflexivity|].
    rewrite Rf. unfold pace_of, hours_of, avg_score_of.
    rewrite Ep, Eh, Rw, Rs, Ea. reflexivity. }
  split; [repeat split; assumption|]. split.
  - repeat split.
    + intros F. now rewrite (Ff F).
    + exact Fp.
    + exact Fh.
    + intros F. now rewrite (Fw F).
    + intros F. now rewrite (Fs F).
    + exact Fa.
  - repeat split; intros l E.
    + now rewrite (Lf l E).
    + now rewrite (Lw l E).
    + now rewrite (Ls l E).
Qed.

Lemma well_formed_request_returns_witness :
  well_formed_optional odd_but_readable_request = true
  /\ focus_of (prefs_of odd_but_readable_request) = Ok ["frontend"]
  /\ pace_of (prefs_of odd_but_readable_request) = Ok "balanced"
  /\ hours_of (prefs_of odd_but_readable_request) = Ok 4%Z
  /\ topics_of "strength_topics" (interview_of odd_but_readable_request) = Ok ["hooks"]
  /\ avg_score_of (interview_of odd_but_readable_request) = Ok 1%Z
  /\ exists plan, roadmap odd_but_readable_request = Ok plan.
Proof.
  repeat (split; [reflexivity|]).
  destruct (well_formed_request_returns odd_but_readable_request eq_refl)
    as (focus & pace & hours & weak_topics & strength_topics & avg_score & E & _).
  eexists. exact E.
Defined.

(** C2 as stated fails: a truthy pace that is not a string, hours or a
    score that [int] cannot convert (a word, a list, an infinity, NaN),
    and a truthy topics field that cannot be iterated each raise. *)
Lemma malformed_optional_field_raises :
  roadmap {| missing := [VStr "React"];
             preferences := Some [("pace", VInt 5)];
             interview := None |}
  = Raise AttributeError
  /\ roadmap {| missing := [VStr "React"];
                preferences := Some [("availability_hours", VStr "many")];
                interview := None |}
     = Raise ValueError
  /\ roadmap {| missing := [VStr "React"];
                preferences := None;
                interview := Some [("avg_score", VList [VInt 80])] |}
     = Raise TypeError
  /\ roadmap {| missing := [VStr "React"];
                preferences := None;
                interview := Some [("weak_topics", VInt 3)] |}
     = Raise TypeError
  /\ roadmap {| missing := [VStr "React"];
                preferences := Some [("availability_hours", VInf false)];
                interview := None |}
     = Raise OverflowError
  /\ roadmap {| missing := [VStr "React"];
                preferences := None;
                interview := Some [("avg_score", VNaN)] |}
     = Raise ValueError.
Proof.
  repeat split; vm_compute; reflexivity.
Qed.

(** ** Learning resources *)

Section Resources.

Lemma lookup_In {A : Type} (k : string) (d : list (string * A)) (a : A) :
  lookup k d = Some a -> In (k, a) d.
Proof.
  induction d as [|[k' a'] d IH]; cbn [lookup]; [discriminate|].
  destruct (String.eqb_spec k k') as [<- | N].
  - intros E. injection E as <-. now left.
  - intros E. right. now apply IH.
Qed.

Lemma catalog_buckets :
  Forall (fun kv =>
            length (get_or "foundations" (snd kv) []) = 3%nat
            /\ length (get_or "project" (snd kv) []) = 3%nat) skill_resources.
Proof.
  unfold skill_resources. repeat constructor.
Qed.

(** Whatever the skill and the milestone, the lookup returns three
    resources. *)
Lemma get_learning_resources_three (skill milestone_type : string) :
  length (get_learning_resources skill milestone_type) = 3%nat.
Proof.
  unfold get_learning_resources.
  destruct (lookup (skill_key_of skill) skill_resources) as [buckets|] eqn:E.
  - apply lookup_In in E.
    pose proof (proj1 (Forall_forall _ _) catalog_buckets _ E) as [Hf Hp].
    cbn [snd] in Hf, Hp.
    now destruct (resource_type_of_cases milestone_type) as [-> | ->].
  - now destruct (resource_type_of_cases milestone_type) as [-> | ->].
Qed.

(** The prioritized list holds cleaned skills only. *)
Lemma append_if_incl (missing : list string) (keep : string -> list string -> bool)
    (l acc : list string) :
  (forall x, In x l -> In x missing) ->
  (forall x, In x acc -> In x missing) ->
  forall x,
    In x (fold_left
            (fun prioritized s =>
               if keep s prioritized then (prioritized ++ [s])%list else prioritized)
            l acc) ->
    In x missing.
Proof.
  revert acc. induction l as [|s l IH]; intros acc Hl Hacc x; cbn [fold_left].
  - apply Hacc.
  - apply IH.
    + intros y Hy. apply Hl. now right.
    + intros y Hy. destruct (keep s acc); [|now apply Hacc].
      apply in_app_or in Hy. destruct Hy as [Hy | [<- | []]].
      * now apply Hacc.
      * apply Hl. now left.
Qed.

Lemma prioritize_area_incl (missing acc : list string) (area : string) :
  (forall x, In x acc -> In x missing) ->
  forall x, In x (prioritize_area missing acc area) -> In x missing.
Proof.
  intros Hacc x. unfold prioritize_area.
  induction (get_or area area_map []) as [|s l IH] in acc, Hacc |- *; cbn [fold_left].
  - apply Hacc.
  - apply IH. intros y Hy.
    destruct (mem s missing) eqn:Em; cbn [andb] in Hy; [|now apply Hacc].
    destruct (negb (mem s acc)); [|now apply Hacc].
    apply in_app_or in Hy. destruct Hy as [Hy | [<- | []]].
    + now apply Hacc.
    + now apply mem_In.
Qed.

Lemma prioritize_sound (focus missing : list string) (x : string) :
  In x (prioritize focus missing) -> In x missing.
Proof.
  unfold prioritize.
  apply (append_if_incl missing (fun s prioritized => negb (mem s prioritized))).
  - auto.
  - induction focus as [|area focus IH] using rev_ind; [intros y []|].
    rewrite fold_left_app. cbn [fold_left]. now apply prioritize_area_incl.
Qed.

(** When no cleaned skill is the empty string, every week carries three
    resources. *)
Lemma three_resources_per_week (req : RoadmapRequest) (plan : list week_plan) :
  roadmap req = Ok plan ->
  Forall (fun s => s <> EmptyString) (clean_missing (missing req)) ->
  Forall (fun w => length (learning_resources w) = 3%nat) plan.
Proof.
  intros Hplan Hnamed.
  destruct (clean_missing (missing req)) as [|m ms] eqn:Hm.
  - rewrite (roadmap_nil req Hm) in Hplan. injection Hplan as <-. constructor.
  - destruct (roadmap_Ok req plan Hplan)
      as (f & p & h & wk & st & a & _ & _ & _ & _ & _ & _ & ->);
      [now rewrite Hm|].
    apply Forall_forall. intros w Hw.
    destruct (In_weeks_from _ _ _ _ _ Hw) as (c & k & Hc & ->).
    unfold week_calls in Hc. apply in_app_or in Hc.
    destruct Hc as [Hc | [<- | [<- | []]]]; try reflexivity.
    apply in_flat_map in Hc. destruct Hc as (skill & Hs & Hc).
    destruct (skill_calls_site _ _ _ Hc) as (Eo & Es & _).
    cbn [learning_resources week_of_call]. rewrite Eo, Es.
    rewrite Hm in Hs. apply prioritize_sound in Hs.
    pose proof (proj1 (Forall_forall _ _) Hnamed _ Hs) as Hn.
    destruct skill as [|ch skill]; [now destruct Hn|].
    apply get_learning_resources_three.
Qed.

End Resources.

(** C10 does not hold of the code: an entry of [missing] made of
    whitespace passes the filter, is stripped to the empty string, and its
    Foundations and Project weeks are appended with no resources at all. *)
Theorem blank_skill_weeks_lack_resources :
  clean_missing (missing blank_skill_request) = [EmptyString]
  /\ exists plan,
       roadmap blank_skill_request = Ok plan
       /\ map milestone plan
          = [ "Foundations: "; "Project: Build with ";
              "Capstone: Integrate "; "Assessment & Reflection" ]
       /\ map (fun w => length (learning_resources w)) plan = [0; 0; 3; 3]%nat.
Proof.
  split; [reflexivity|].
  eexists. split; [vm_compute; reflexivity|]. split; reflexivity.
Qed.

(** ** Further properties of the roadmap endpoint *)

(** *** Prioritization *)

Section Prioritization.

Lemma append_if_NoDup (keep : string -> list string -> bool) (l acc : list string) :
  (forall s prioritized, keep s prioritized = true -> ~ In s prioritized) ->
  NoDup acc ->
  NoDup (fold_left
           (fun prioritized s =>
              if keep s prioritized then (prioritized ++ [s])%list else prioritized)
           l acc).
Proof.
  intros Hkeep. revert acc. induction l as [|s l IH]; intros acc Hacc; cbn [fold_left].
  - exact Hacc.
  - apply IH. destruct (keep s acc) eqn:E; [|exact Hacc].
    apply NoDup_app; [exact Hacc | repeat constructor; intros [] | ].
    intros x Hx [<- | []]. exact (Hkeep _ _ E Hx).
Qed.

Lemma not_mem_not_In (s : string) (l : list string) :
  negb (mem s l) = true -> ~ In s l.
Proof.
  intros H Hin. apply mem_In in Hin. rewrite Hin in H. discriminate H.
Qed.

Lemma prioritize_area_NoDup (missing acc : list string) (area : string) :
  NoDup acc -> NoDup (prioritize_area missing acc area).
Proof.
  unfold prioritize_area.
  apply (append_if_NoDup
           (fun s prioritized => mem s missing && negb (mem s prioritized))).
  intros s p H. apply andb_prop in H. now apply not_mem_not_In.
Qed.

Lemma focus_front_NoDup (focus missing : list string) :
  NoDup (fold_left (prioritize_area missing) focus []).
Proof.
  induction focus as [|area focus IH] using rev_ind; [constructor|].
  rewrite fold_left_app. cbn [fold_left]. now apply prioritize_area_NoDup.
Qed.



(** The second loop, on a list without duplicates, appends the skills not
    placed yet, in their order. *)
Lemma append_rest_filter (l acc : list string) :
  NoDup l ->
  fold_left
    (fun prioritized s =>
       if negb (mem s prioritized) then (prioritized ++ [s])%list else prioritized)
    l acc
  = (acc ++ filter (fun s => negb (mem s acc)) l)%list.
Proof.
  revert acc. induction l as [|s l IH]; intros acc Hl; cbn [fold_left filter].
  - now rewrite app_nil_r.
  - inversion Hl as [|? ? Hs Hl']; subst.
    destruct (mem s acc) eqn:E; cbn [negb].
    + now apply IH.
    + rewrite (IH _ Hl'), <- app_assoc. cbn [app]. do 2 f_equal.
      apply filter_ext_in. intros x Hx. f_equal.
      unfold mem. rewrite existsb_app. cbn [existsb].
      rewrite orb_false_r.
      destruct (String.eqb_spec x s) as [-> | N]; [now destruct Hs|].
      now rewrite orb_false_r.
Qed.

End Prioritization.

(** X1: the prioritized list holds every cleaned skill, nothing else, and
    no skill twice, whatever the focus areas are. *)
Theorem prioritize_no_duplicates (focus missing : list string) :
  NoDup (prioritize focus missing)
  /\ forall x, In x (prioritize focus missing) <-> In x missing.
Proof.
  split.
  - unfold prioritize.
    apply (append_if_NoDup (fun s prioritized => negb (mem s prioritized))).
    + intros s p. apply not_mem_not_In.
    + apply focus_front_NoDup.
  - intros x. split; [apply prioritize_sound | apply prioritize_complete].
Qed.



(** *** The layout of a plan *)

Section Layout.

Variables (pace : string) (hours : Z).

Lemma weeks_from_milestones (n : nat) (cs : list call) :
  map milestone (weeks_from pace hours n cs) = map c_milestone cs.
Proof.
  revert n. induction cs as [|c cs IH]; intros n; [reflexivity|].
  cbn [weeks_from map]. now rewrite IH.
Qed.

Lemma map_flat_map {A B C : Type} (f : B -> C) (g : A -> list B) (l : list A) :
  map f (flat_map g l) = flat_map (fun x => map f (g x)) l.
Proof.
  induction l as [|a l IH]; [reflexivity|].
  cbn [flat_map]. now rewrite map_app, IH.
Qed.

Lemma skill_calls_length (weak_topics : list string) (skill : string) :
  length (skill_calls weak_topics skill)
  = (2 + (if flagged_weak weak_topics skill then 1 else 0))%nat.
Proof.
  unfold skill_calls. now destruct (flagged_weak weak_topics skill).
Qed.

Lemma skill_calls_total (weak_topics prioritized : list string) :
  length (flat_map (skill_calls weak_topics) prioritized)
  = (2 * length prioritized
     + length (filter (flagged_weak weak_topics) prioritized))%nat.
Proof.
  induction prioritized as [|s l IH]; [reflexivity|].
  cbn [flat_map filter length]. rewrite length_app, IH, skill_calls_length.
  destruct (flagged_weak weak_topics s); cbn [length]; lia.
Qed.

End Layout.

(** X3: the milestones of a plan, in order: for each prioritized skill a
    Foundations week, a Project week and, when a weak topic names the
    skill, a Reinforcement week; then the Capstone week over all the
    prioritized skills and the Assessment week. *)
Theorem plan_milestones (req : RoadmapRequest) (plan : list week_plan)
    (focus weak_topics : list string) :
  roadmap req = Ok plan ->
  clean_missing (missing req) <> [] ->
  focus_of (prefs_of req) = Ok focus ->
  topics_of "weak_topics" (interview_of req) = Ok weak_topics ->
  let prioritized := prioritize focus (clean_missing (missing req)) in
  map milestone plan
  = (flat_map
       (fun skill =>
          [("Foundations: " ++ skill)%string;
           ("Project: Build with " ++ skill)%string]
          ++ (if flagged_weak weak_topics skill
              then [("Reinforcement: " ++ skill)%string] else []))
       prioritized
     ++ [("Capstone: Integrate " ++ join ", " prioritized)%string;
         "Assessment & Reflection"])%list.
Proof.
  intros Hplan Hne Hf Hw prioritized.
  destruct (roadmap_Ok req plan Hplan Hne)
    as (f & p & h & wk & st & a & Ef & _ & _ & Ew & _ & _ & ->).
  rewrite Hf in Ef. injection Ef as <-.
  rewrite Hw in Ew. injection Ew as <-.
  rewrite weeks_from_milestones. unfold week_calls.
  rewrite map_app, map_flat_map. f_equal.
  apply flat_map_ext. intros skill. unfold skill_calls.
  now destruct (flagged_weak weak_topics skill).
Qed.

Lemma plan_milestones_witness :
  exists plan,
    roadmap weak_react_request = Ok plan
    /\ map milestone plan
       = [ "Foundations: Docker"; "Project: Build with Docker";
           "Foundations: React"; "Project: Build with React";
           "Reinforcement: React";
           "Capstone: Integrate Docker, React"; "Assessment & Reflection" ].
Proof.
  eexists. split; [vm_compute; reflexivity|].
  rewrite (plan_milestones weak_react_request _ [] ["REACT hooks"]).
  - reflexivity.
  - vm_compute. reflexivity.
  - discriminate.
  - reflexivity.
  - reflexivity.
Defined.

(** X4: a plan for a non-empty cleaned list has two weeks for each
    prioritized skill, one more for each skill a weak topic names, and the
    two closing weeks. *)
Theorem plan_length (req : RoadmapRequest) (plan : list week_plan)
    (focus weak_topics : list string) :
  roadmap req = Ok plan ->
  clean_missing (missing req) <> [] ->
  focus_of (prefs_of req) = Ok focus ->
  topics_of "weak_topics" (interview_of req) = Ok weak_topics ->
  let prioritized := prioritize focus (clean_missing (missing req)) in
  length plan
  = (2 * length prioritized
     + length (filter (flagged_weak weak_topics) prioritized) + 2)%nat.
Proof.
  intros Hplan Hne Hf Hw prioritized.
  destruct (roadmap_Ok req plan Hplan Hne)
    as (f & p & h & wk & st & a & Ef & _ & _ & Ew & _ & _ & ->).
  rewrite Hf in Ef. injection Ef as <-.
  rewrite Hw in Ew. injection Ew as <-.
  rewrite weeks_from_length. unfold week_calls.
  rewrite length_app, skill_calls_total. reflexivity.
Qed.

Lemma plan_length_witness :
  exists plan, roadmap weak_react_request = Ok plan /\ length plan = 7%nat.
Proof.
  eexists. split; [vm_compute; reflexivity|].
  rewrite (plan_length weak_react_request _ [] ["REACT hooks"]).
  - reflexivity.
  - vm_compute. reflexivity.
  - discriminate.
  - reflexivity.
  - reflexivity.
Defined.

(** *** Pacing, beyond the slow case *)

Section MorePacing.

Variables (pace : string) (hours : Z).



End MorePacing.





(** *** Repeated skills *)

Section Repeats.

Lemma clean_missing_app (l l' : list value) :
  clean_missing (l ++ l') = (clean_missing l ++ clean_missing l')%list.
Proof.
  induction l as [|m l IH]; [reflexivity|].
  cbn [app clean_missing]. rewrite IH.
  destruct (as_str m); [destruct (truthy m)|]; reflexivity.
Qed.

Lemma fold_left_ext_eq {A B : Type} (f g : A -> B -> A) (l : list B) (a : A) :
  (forall x y, f x y = g x y) -> fold_left f l a = fold_left g l a.
Proof.
  intros H. revert a. induction l as [|b l IH]; intros a; [reflexivity|].
  cbn [fold_left]. now rewrite H, IH.
Qed.

Lemma mem_app_incl (s : string) (c c' : list string) :
  (forall x, In x c' -> In x c) -> mem s (c ++ c') = mem s c.
Proof.
  intros Hincl. unfold mem. rewrite existsb_app.
  destruct (existsb (String.eqb s) c) eqn:E; [reflexivity|].
  destruct (existsb (String.eqb s) c') eqn:E'; [|reflexivity].
  apply (mem_In s c') in E'. apply Hincl in E'. apply mem_In in E'.
  unfold mem in E'. congruence.
Qed.

Lemma append_rest_noop (l acc : list string) :
  (forall x, In x l -> In x acc) ->
  fold_left
    (fun prioritized s =>
       if negb (mem s prioritized) then (prioritized ++ [s])%list else prioritized)
    l acc
  = acc.
Proof.
  induction l as [|s l IH]; intros H; [reflexivity|].
  cbn [fold_left].
  assert (E : mem s acc = true) by (apply mem_In, H; now left).
  rewrite E. cbn [negb]. apply IH. intros x Hx. apply H. now right.
Qed.

Lemma prioritize_app_incl (focus c c' : list string) :
  (forall x, In x c' -> In x c) ->
  prioritize focus (c ++ c') = prioritize focus c.
Proof.
  intros Hincl. unfold prioritize.
  assert (E : fold_left (prioritize_area (c ++ c')) focus []
              = fold_left (prioritize_area c) focus []).
  { apply fold_left_ext_eq. intros acc area. unfold prioritize_area.
    apply fold_left_ext_eq. intros p s. now rewrite mem_app_incl. }
  rewrite E, fold_left_app. apply append_rest_noop.
  intros x Hx. apply append_rest_In. right. now apply Hincl.
Qed.

End Repeats.

(** X7: entries of [missing] that, once cleaned, repeat skills already
    listed change nothing: the endpoint returns (or raises) the same. *)
Theorem repeated_skills_ignored (l l' : list value)
    (prefs iv : option dict) :
  (forall x, In x (clean_missing l') -> In x (clean_missing l)) ->
  roadmap {| missing := l ++ l'; preferences := prefs; interview := iv |}
  = roadmap {| missing := l; preferences := prefs; interview := iv |}.
Proof.
  intros Hincl. unfold roadmap. cbn [missing].
  rewrite clean_missing_app.
  destruct (clean_missing l) as [|m ms] eqn:Hl.
  - destruct (clean_missing l') as [|m' ms']; [reflexivity|].
    destruct (Hincl m' (or_introl eq_refl)).
  - cbn [app is_nil].
    destruct (focus_of _) as [focus|]; [|reflexivity]. cbn [bind].
    change (m :: (ms ++ clean_missing l'))%list
      with ((m :: ms) ++ clean_missing l')%list.
    now rewrite prioritize_app_incl.
Qed.

Lemma repeated_skills_ignored_witness :
  roadmap {| missing := [VStr "React"; VStr "AWS"] ++ [VStr " AWS"; VNone; VStr "React"];
             preferences := None; interview := None |}
  = roadmap {| missing := [VStr "React"; VStr "AWS"];
               preferences := None; interview := None |}.
Proof.
  apply repeated_skills_ignored.
  vm_compute. intros x H. tauto.
Defined.

(** *** The closing weeks *)

(** X8: a plan for a non-empty cleaned list ends with the Capstone week
    and the Assessment week; both carry their own fixed resources, put in
    place of the empty list [add_week] gives a week without skill, and the
    Assessment tasks speak of the first three strength topics. *)
Theorem closing_weeks (req : RoadmapRequest) (plan : list week_plan)
    (focus : list string) (pace : string) (hours : Z)
    (strength_topics : list string) (avg_score : Z) :
  roadmap req = Ok plan ->
  clean_missing (missing req) <> [] ->
  focus_of (prefs_of req) = Ok focus ->
  pace_of (prefs_of req) = Ok pace ->
  hours_of (prefs_of req) = Ok hours ->
  topics_of "strength_topics" (interview_of req) = Ok strength_topics ->
  avg_score_of (interview_of req) = Ok avg_score ->
  exists skill_weeks capstone assessment,
    plan = (skill_weeks ++ [capstone; assessment])%list
    /\ milestone capstone
       = "Capstone: Integrate "
         ++ join ", " (prioritize focus (clean_missing (missing req)))
    /\ tasks capstone = adjust_tasks pace hours (capstone_tasks avg_score)
    /\ learning_resources capstone = capstone_resources
    /\ milestone assessment = "Assessment & Reflection"
    /\ tasks assessment
       = adjust_tasks pace hours
           (assessment_tasks
              (if is_nil strength_topics then "key concepts"
               else join ", " (firstn 3 strength_topics)))
    /\ learning_resources assessment = assessment_resources
    /\ week assessment = Z.of_nat (length plan).
Proof.
  intros Hplan Hne Hf Hp Hh Hs Ha.
  destruct (roadmap_Ok req plan Hplan Hne)
    as (f & p & h & wk & st & a & Ef & Ep & Eh & _ & Es & Ea & ->).
  rewrite Hf in Ef. injection Ef as <-.
  rewrite Hp in Ep. injection Ep as <-.
  rewrite Hh in Eh. injection Eh as <-.
  rewrite Hs in Es. injection Es as <-.
  rewrite Ha in Ea. injection Ea as <-.
  unfold week_calls. rewrite weeks_from_app. cbn [weeks_from].
  eexists. eexists. eexists. split; [reflexivity|].
  repeat split.
  cbn [week week_of_call]. rewrite length_app, weeks_from_length. cbn [length]. lia.
Qed.

Lemma closing_weeks_witness :
  exists plan skill_weeks capstone assessment,
    roadmap odd_but_readable_request = Ok plan
    /\ plan = (skill_weeks ++ [capstone; assessment])%list
    /\ milestone capstone = "Capstone: Integrate React, AWS"
    /\ learning_resources capstone = capstone_resources
    /\ nth_error (tasks assessment) 1 = Some "Write a blog/notes highlighting hooks"
    /\ learning_resources assessment = assessment_resources
    /\ week assessment = 6%Z.
Proof.
  destruct (closing_weeks odd_but_readable_request
              (build_weeks "balanced" 4 ["React"; "AWS"] [] ["hooks"] 1)
              ["frontend"] "balanced" 4%Z ["hooks"] 1%Z)
    as (sw & cap & ass & E & Ec & Etc & Erc & Ea & Eta & Era & Ew);
    try reflexivity; [discriminate|].
  exists (build_weeks "balanced" 4 ["React"; "AWS"] [] ["hooks"] 1), sw, cap, ass.
  split; [reflexivity|]. split; [exact E|]. split; [exact Ec|].
  split; [exact Erc|]. split; [rewrite Eta; reflexivity|].
  split; [exact Era | exact Ew].
Defined.

(** *** Resource resolution *)

Section Resolution.

Lemma lower_app (a b : string) : lower (a ++ b) = lower a ++ lower b.
Proof.
  induction a as [|c a IH]; [reflexivity|]. cbn [append lower]. now rewrite IH.
Qed.

(** A needle cannot start at a character that is not its first. *)
Lemma str_in_skip (c0 c : ascii) (a b : string) :
  c <> c0 -> str_in (String c0 a) (String c b) = str_in (String c0 a) b.
Proof.
  intros N. cbn [str_in prefix].
  destruct (ascii_dec c0 c) as [E | _]; [now destruct N|]. reflexivity.
Qed.

Lemma str_in_unfold (a : string) (c : ascii) (b : string) :
  str_in a (String c b) = prefix a (String c b) || str_in a b.
Proof. reflexivity. Qed.

Lemma foundations_not_in_project_prefix (t : string) :
  str_in "foundations" ("project: build with " ++ t) = str_in "foundations" t.
Proof.
  cbn [append]. now rewrite !str_in_skip by discriminate.
Qed.

Lemma foundations_not_in_reinforcement_prefix (t : string) :
  str_in "foundations" ("reinforcement: " ++ t) = str_in "foundations" t.
Proof.
  cbn [append]. rewrite !str_in_skip by discriminate.
  rewrite str_in_unfold. simpl (prefix _ _). cbn [orb].
  now rewrite !str_in_skip by discriminate.
Qed.

Lemma find_first {A : Type} (f : A -> bool) (before after : list A) (k : A) :
  existsb f before = false -> f k = true ->
  find f (before ++ k :: after) = Some k.
Proof.
  induction before as [|b before IH]; cbn [existsb app find]; intros Hb Hk.
  - now rewrite Hk.
  - apply orb_false_elim in Hb. destruct Hb as [Hb Hr]. rewrite Hb. now apply IH.
Qed.

End Resolution.

(** X9: which bucket a week's milestone selects.  A Foundations week
    always takes the foundations bucket.  A Project or Reinforcement week
    takes the project bucket, unless the skill name itself contains
    "foundations" (case ignored): the first test of the resolution then
    sends it to the foundations bucket. *)
Theorem milestone_bucket (skill : string) :
  resource_type_of ("Foundations: " ++ skill) = "foundations"
  /\ resource_type_of ("Project: Build with " ++ skill)
     = (if str_in "foundations" (lower skill) then "foundations" else "project")
  /\ resource_type_of ("Reinforcement: " ++ skill)
     = (if str_in "foundations" (lower skill) then "foundations" else "project").
Proof.
  unfold resource_type_of. rewrite !lower_app.
  change (lower "Foundations: ") with "foundations: ".
  change (lower "Project: Build with ") with "project: build with ".
  change (lower "Reinforcement: ") with "reinforcement: ".
  split; [|split].
  - change ("foundations: " ++ lower skill)
      with ("foundations" ++ (": " ++ lower skill)).
    now rewrite str_in_app_l.
  - rewrite foundations_not_in_project_prefix.
    destruct (str_in "foundations" (lower skill)); [reflexivity|].
    now rewrite (str_in_app_l "project" (": build with " ++ lower skill)
                 : str_in "project" ("project: build with " ++ lower skill) = true).
  - rewrite foundations_not_in_reinforcement_prefix.
    destruct (str_in "foundations" (lower skill)); [reflexivity|].
    destruct (str_in "project" _); [reflexivity|].
    now rewrite (str_in_app_l "reinforcement" (": " ++ lower skill)
                 : str_in "reinforcement" ("reinforcement: " ++ lower skill) = true).
Qed.

(** X10: a skill that is a key of the catalog gets its own entry: the
    foundations bucket for its Foundations week and the project bucket
    for its Project and Reinforcement weeks. *)
Theorem catalog_skill_resources (skill : string)
    (buckets : list (string * list resource)) :
  lookup skill skill_resources = Some buckets ->
  get_learning_resources skill ("Foundations: " ++ skill)
  = get_or "foundations" buckets []
  /\ get_learning_resources skill ("Project: Build with " ++ skill)
     = get_or "project" buckets []
  /\ get_learning_resources skill ("Reinforcement: " ++ skill)
     = get_or "project" buckets [].
Proof.
  intros H. apply lookup_In in H. unfold skill_resources in H.
  repeat (destruct H as [H | H];
          [injection H as <- <-; repeat split; vm_compute; reflexivity|]).
  destruct H.
Qed.

Lemma catalog_skill_resources_witness :
  exists buckets,
    lookup "Docker" skill_resources = Some buckets
    /\ map title (get_learning_resources "Docker" "Reinforcement: Docker")
       = ["Docker Best Practices"; "Docker Compose Tutorial"; "Docker Security"].
Proof.
  eexists. split; [reflexivity|].
  change "Reinforcement: Docker" with ("Reinforcement: " ++ "Docker").
  rewrite (proj2 (proj2 (catalog_skill_resources "Docker" _ eq_refl))).
  reflexivity.
Defined.

(** X11: a skill that is no key of the catalog takes the entry of the
    first key, in the catalog's order, that contains it or that it
    contains (case ignored); later keys that match as well are not
    looked at. *)
Theorem first_partial_match_wins (skill milestone_type key : string)
    (before after : list string) (buckets : list (string * list resource)) :
  has_key skill skill_resources = false ->
  keys skill_resources = (before ++ key :: after)%list ->
  existsb (partial_match skill) before = false ->
  partial_match skill key = true ->
  lookup key skill_resources = Some buckets ->
  get_learning_resources skill milestone_type
  = get_or (resource_type_of milestone_type) buckets [].
Proof.
  intros Hkey Hkeys Hbefore Hmatch Hlookup.
  unfold get_learning_resources, skill_key_of.
  rewrite Hkey, Hkeys, (find_first _ _ _ _ Hbefore Hmatch), Hlookup.
  reflexivity.
Qed.

(** "Express and MongoDB" matches the keys MongoDB and Express; MongoDB
    comes first in the catalog. *)
Lemma first_partial_match_wins_witness :
  partial_match "Express and MongoDB" "Express" = true
  /\ map title
       (get_learning_resources "Express and MongoDB"
          "Foundations: Express and MongoDB")
     = ["MongoDB University"; "MongoDB Tutorial"; "MongoDB Crash Course"].
Proof.
  split; [reflexivity|].
  rewrite (first_partial_match_wins "Express and MongoDB" _ "MongoDB"
             ["React"; "Node.js"; "Python"]
             ["Express"; "AWS"; "Docker"; "TailwindCSS"; "NLP"]
             (get_or "MongoDB" skill_resources []));
    reflexivity.
Defined.

(** ** The gap endpoint *)

Section GapFacts.

Lemma filter_nil_iff {A : Type} (f : A -> bool) (l : list A) :
  filter f l = [] <-> forall x, In x l -> f x = false.
Proof.
  induction l as [|a l IH]; cbn [filter].
  - split; [intros _ x [] | reflexivity].
  - destruct (f a) eqn:E.
    + split; [discriminate|]. intros H.
      rewrite (H a (or_introl eq_refl)) in E. discriminate E.
    + rewrite IH. split.
      * intros H x [<- | Hx]; [exact E | now apply H].
      * intros H x Hx. apply H. now right.
Qed.

Lemma mem_false_iff (s : string) (l : list string) : mem s l = false <-> ~ In s l.
Proof.
  rewrite <- mem_In. destruct (mem s l); split; congruence.
Qed.

(** Every skill a role can ask for is a key of the resource catalog, has
    no surrounding whitespace, and no role asks for a skill twice. *)
Lemma desired_for_catalog (role s : string) :
  In s (Gap.desired_for role) ->
  has_key s skill_resources = true /\ strip s = s /\ nonempty s = true.
Proof.
  unfold Gap.desired_for.
  repeat match goal with
         | |- context [if ?b then _ else _] => destruct b
         end;
    cbn [In]; intros H;
    repeat (destruct H as [<- | H]; [repeat split; reflexivity|]);
    destruct H.
Qed.

Lemma desired_for_NoDup (role : string) : NoDup (Gap.desired_for role).
Proof.
  unfold Gap.desired_for.
  repeat match goal with
         | |- context [if ?b then _ else _] => destruct b
         end;
    repeat constructor; cbn [In]; intros H; now refute_in H.
Qed.

Lemma gap_missing_nil (req : Gap.GapRequest) :
  Gap.missing (Gap.gap req) = []
  <-> forall s,
        In s (Gap.desired_for (lower (Gap.target_role req))) ->
        In s (Gap.skills req).
Proof.
  unfold Gap.gap. cbn [Gap.missing]. rewrite filter_nil_iff. split.
  - intros H s Hs. specialize (H s Hs).
    apply negb_false_iff in H. now apply mem_In.
  - intros H s Hs. apply negb_false_iff, mem_In. now apply H.
Qed.

End GapFacts.

(** X12: the gap is empty exactly when the user already lists every
    skill the role asks for; names are compared as they are written. *)
Theorem gap_empty_iff (req : Gap.GapRequest) :
  Gap.missing (Gap.gap req) = []
  <-> forall s,
        In s (Gap.desired_for (lower (Gap.target_role req))) ->
        In s (Gap.skills req).
Proof.
  exact (gap_missing_nil req).
Qed.

(** X13: adding the skills reported missing to the user's skills closes
    the gap for the same role. *)
Theorem gap_closed_by_missing (skills : list string) (role : string) :
  let first := Gap.gap {| Gap.skills := skills; Gap.target_role := role |} in
  Gap.missing
    (Gap.gap {| Gap.skills := (skills ++ Gap.missing first)%list;
                Gap.target_role := role |})
  = [].
Proof.
  intros first. apply gap_missing_nil. cbn [Gap.target_role Gap.skills].
  intros s Hs. apply in_or_app.
  destruct (mem s skills) eqn:E.
  - left. now apply mem_In.
  - right. subst first. unfold Gap.gap. cbn [Gap.missing Gap.skills Gap.target_role].
    apply filter_In. split; [exact Hs | now rewrite E].
Qed.

(** *** From the gap to the roadmap *)

Section GapRoadmap.

Lemma clean_missing_strs (m : list string) :
  (forall s, In s m -> strip s = s /\ nonempty s = true) ->
  clean_missing (map VStr m) = m.
Proof.
  induction m as [|s m IH]; intros H; [reflexivity|].
  cbn [map clean_missing as_str truthy].
  destruct (H s (or_introl eq_refl)) as [Es En]. rewrite En, Es.
  f_equal. apply IH. intros x Hx. apply H. now right.
Qed.

Lemma prioritize_no_focus (m : list string) :
  NoDup m -> prioritize [] m = m.
Proof.
  intros H. unfold prioritize. cbn [fold_left].
  rewrite (append_rest_filter m [] H). cbn [app].
  rewrite <- (filter_ext_in (fun _ => true)); [|reflexivity].
  induction m as [|s m IH]; [reflexivity|].
  cbn [filter]. f_equal. apply IH. now inversion H.
Qed.

Lemma roadmap_defaults (m : list string) :
  (forall s, In s m -> strip s = s /\ nonempty s = true) ->
  NoDup m ->
  roadmap {| missing := map VStr m; preferences := None; interview := None |}
  = Ok (if is_nil m then []
        else weeks_from "balanced" 6 0 (week_calls m [] [] 0)).
Proof.
  intros Hclean Hnd. unfold roadmap. cbn [missing].
  rewrite (clean_missing_strs m Hclean).
  destruct m as [|s m]; [reflexivity|]. cbn [is_nil].
  change (focus_of _) with (@Ok (list string) []).
  change (pace_of _) with (Ok "balanced").
  change (hours_of _) with (Ok 6%Z).
  change (topics_of "weak_topics" _) with (@Ok (list string) []).
  change (topics_of "strength_topics" _) with (@Ok (list string) []).
  change (avg_score_of _) with (Ok 0%Z).
  cbn [bind]. rewrite (prioritize_no_focus _ Hnd), build_weeks_calls. reflexivity.
Qed.

Lemma catalog_key_resources (skill : string) :
  has_key skill skill_resources = true ->
  exists buckets,
    lookup skill skill_resources = Some buckets
    /\ get_learning_resources skill ("Foundations: " ++ skill)
       = get_or "foundations" buckets []
    /\ get_learning_resources skill ("Project: Build with " ++ skill)
       = get_or "project" buckets [].
Proof.
  unfold has_key. destruct (lookup skill skill_resources) as [buckets|] eqn:E;
    [intros _ | discriminate].
  exists buckets. split; [reflexivity|].
  apply lookup_In in E. unfold skill_resources in E.
  repeat (destruct E as [E | E];
          [injection E as <- <-; split; vm_compute; reflexivity|]).
  destruct E.
Qed.

End GapRoadmap.

(** X14: the missing list the gap endpoint reports can be handed to the
    roadmap endpoint as it is.  With no preferences and no interview the
    plan keeps the order of the gap, has a Foundations and a Project week
    per missing skill and the two closing weeks.  The Foundations week of
    a skill carries the foundations bucket of that skill's own catalog
    entry and its Project week the project bucket of that entry, never a
    synthesized one; the closing weeks carry their fixed resources; an
    empty gap gives the empty roadmap. *)
Theorem gap_then_roadmap (req : Gap.GapRequest) :
  let m := Gap.missing (Gap.gap req) in
  exists plan,
    roadmap {| missing := map VStr m; preferences := None; interview := None |}
    = Ok plan
    /\ map milestone plan
       = (if is_nil m then []
          else (flat_map
                  (fun skill => [("Foundations: " ++ skill)%string;
                                 ("Project: Build with " ++ skill)%string]) m
                ++ [("Capstone: Integrate " ++ join ", " m)%string;
                    "Assessment & Reflection"])%list)
    /\ Forall
         (fun w =>
            (milestone w = "Capstone: Integrate " ++ join ", " m
             /\ learning_resources w = capstone_resources)
            \/ (milestone w = "Assessment & Reflection"
                /\ learning_resources w = assessment_resources)
            \/ exists skill buckets,
                 In skill m
                 /\ lookup skill skill_resources = Some buckets
                 /\ ((milestone w = "Foundations: " ++ skill
                      /\ lookup "foundations" buckets = Some (learning_resources w))
                     \/ (milestone w = "Project: Build with " ++ skill
                         /\ lookup "project" buckets
                            = Some (learning_resources w))))
         plan.
Proof.
  intros m.
  assert (Hdes : forall s, In s m -> In s (Gap.desired_for (lower (Gap.target_role req)))).
  { intros s Hs. subst m. unfold Gap.gap in Hs. cbn [Gap.missing] in Hs.
    now apply filter_In in Hs. }
  assert (Hclean : forall s, In s m -> strip s = s /\ nonempty s = true).
  { intros s Hs. destruct (desired_for_catalog _ _ (Hdes s Hs)) as (_ & E & N).
    now split. }
  assert (Hnd : NoDup m).
  { subst m. unfold Gap.gap. cbn [Gap.missing]. apply NoDup_filter, desired_for_NoDup. }
  eexists. split; [apply (roadmap_defaults m Hclean Hnd)|].
  destruct m as [|s0 m0] eqn:Em; [split; [reflexivity | constructor]|].
  cbn [is_nil]. rewrite <- Em in *. clear Em. split.
  - rewrite weeks_from_milestones. unfold week_calls.
    rewrite map_app, map_flat_map. reflexivity.
  - apply Forall_forall. intros w Hw.
    destruct (In_weeks_from _ _ _ _ _ Hw) as (c & k & Hc & ->).
    unfold week_calls in Hc. apply in_app_or in Hc.
    destruct Hc as [Hc | [<- | [<- | []]]];
      [|left; split; reflexivity | right; left; split; reflexivity].
    right. right.
    apply in_flat_map in Hc. destruct Hc as (skill & Hs & Hc).
    destruct (desired_for_catalog _ _ (Hdes skill Hs)) as (Hk & _ & Hn).
    destruct (catalog_key_resources skill Hk) as (buckets & El & Ef & Ep).
    unfold skill_calls in Hc. cbn [flagged_weak existsb app In] in Hc.
    destruct Hc as [<- | [<- | []]];
      cbn [learning_resources week_of_call c_overwrite c_skill c_milestone];
      rewrite Hn.
    + exists skill, buckets. split; [exact Hs|]. split; [exact El|].
      left. split; [reflexivity|].
      rewrite Ef. apply lookup_In in El. unfold skill_resources in El.
      repeat (destruct El as [El | El]; [injection El as <- <-; reflexivity|]).
      destruct El.
    + exists skill, buckets. split; [exact Hs|]. split; [exact El|].
      right. split; [reflexivity|].
      rewrite Ep. apply lookup_In in El. unfold skill_resources in El.
      repeat (destruct El as [El | El]; [injection El as <- <-; reflexivity|]).
      destruct El.
Qed.

(** ** The scoring endpoint *)

Section ScoreFacts.

Lemma keywords_for_api : Score.keywords_for "api" = ["rest"; "http"; "auth"; "rate limit"; "jwt"].
Proof. reflexivity. Qed.

Lemma bonus_range (a : string) :
  (0 <= Z.min 20 (Z.of_nat (String.length a) / 50) <= 20)%Z.
Proof.
  assert (0 <= Z.of_nat (String.length a) / 50)%Z by (apply Z.div_pos; lia).
  lia.
Qed.

Lemma percent_half (matches total : Z) :
  (0 < total)%Z -> (50 <= Score.percent matches total)%Z -> (total <= 2 * matches)%Z.
Proof.
  unfold Score.percent. intros Ht H.
  assert (Hm : (total * (100 * matches / total) <= 100 * matches)%Z)
    by (apply Z.mul_div_le; exact Ht).
  nia.
Qed.

End ScoreFacts.

(** X15: a question that names none of the known topics is scored
    against the keywords of the "api" topic: the result is the one the
    question "api" gets for the same answer. *)
Theorem unknown_topic_scored_as_api (q a : string) :
  filter (fun k => str_in k (lower q)) (keys Score.topics) = [] ->
  Score.interview_score {| Score.question := q; Score.answer := a |}
  = Score.interview_score {| Score.question := "api"; Score.answer := a |}.
Proof.
  intros H. unfold Score.interview_score. cbn [Score.question Score.answer].
  assert (E : Score.keywords_for (lower q) = Score.keywords_for (lower "api")).
  { unfold Score.keywords_for at 1. rewrite H. reflexivity. }
  now rewrite E.
Qed.

Lemma unknown_topic_scored_as_api_witness :
  Score.interview_score
    {| Score.question := "How do you keep a Kubernetes cluster healthy?";
       Score.answer := "Use HTTP probes behind auth, with a JWT per service." |}
  = {| Score.score := 61;
       Score.feedback :=
         "Decent answer, consider elaborating on core concepts mentioned in the question." |}.
Proof.
  rewrite unknown_topic_scored_as_api by reflexivity.
  vm_compute. reflexivity.
Defined.

(** X16: an answer that contains none of the selected keywords gets the
    length bonus only, so at most 20 points, and the lowest feedback,
    however long it is. *)
Theorem no_keyword_low_score (req : Score.InterviewScoreRequest) :
  filter (fun kw => str_in kw (lower (Score.answer req)))
    (Score.keywords_for (lower (Score.question req))) = [] ->
  let r := Score.interview_score req in
  Score.score r = Z.min 20 (Z.of_nat (String.length (lower (Score.answer req))) / 50)
  /\ (0 <= Score.score r <= 20)%Z
  /\ Score.feedback r
     = "Try to address the core concepts directly and provide concrete examples.".
Proof.
  intros H r. subst r. unfold Score.interview_score.
  cbn [Score.score Score.feedback]. rewrite H. cbn [length Z.of_nat].
  unfold Score.percent. rewrite Z.mul_0_r, Z.div_0_l
    by (pose proof (Z.le_max_l 5 (Z.of_nat (length (Score.keywords_for
                                                (lower (Score.question req)))))); lia).
  cbn [Z.add].
  pose proof (bonus_range (lower (Score.answer req))) as Hb.
  set (bonus := Z.min 20 _) in *.
  replace (Z.max 0 (Z.min 100 bonus)) with bonus by lia.
  split; [reflexivity|]. split; [exact Hb|].
  replace (70 <=? bonus)%Z with false by (symmetry; apply Z.leb_gt; lia).
  replace (40 <=? bonus)%Z with false by (symmetry; apply Z.leb_gt; lia).
  reflexivity.
Qed.

(** The empty answer. *)
Lemma no_keyword_low_score_witness :
  Score.score
    (Score.interview_score
       {| Score.question := "Explain React hooks"; Score.answer := EmptyString |})
  = 0%Z.
Proof.
  destruct (no_keyword_low_score
              {| Score.question := "Explain React hooks"; Score.answer := EmptyString |}
              eq_refl) as [E _].
  rewrite E. reflexivity.
Defined.

(** X17: the feedback "Good coverage of key concepts." needs a score of
    70, which the length bonus cannot reach alone: the answer has to
    contain at least half of [max(5, number of keywords)] keywords, so at
    least three. *)
Theorem good_coverage_needs_keywords (req : Score.InterviewScoreRequest) :
  let keywords := Score.keywords_for (lower (Score.question req)) in
  let matched :=
    filter (fun kw => str_in kw (lower (Score.answer req))) keywords in
  (70 <= Score.score (Score.interview_score req))%Z ->
  (Z.max 5 (Z.of_nat (length keywords)) <= 2 * Z.of_nat (length matched))%Z
  /\ (3 <= length matched)%nat.
Proof.
  intros keywords matched. unfold Score.interview_score. cbn [Score.score].
  fold keywords. fold matched.
  pose proof (bonus_range (lower (Score.answer req))) as Hb.
  set (bonus := Z.min 20 _) in *.
  set (total := Z.max 5 (Z.of_nat (length keywords))).
  intros H.
  assert (Ht : (5 <= total)%Z) by (subst total; lia).
  assert (Hp : (50 <= Score.percent (Z.of_nat (length matched)) total)%Z) by lia.
  apply percent_half in Hp; [|lia].
  split; [exact Hp | lia].
Qed.

Lemma good_coverage_needs_keywords_witness :
  let req :=
    {| Score.question := "What is a Docker image?";
       Score.answer :=
         "A container starts from an image kept in a registry; compose wires them." |} in
  Score.feedback (Score.interview_score req) = "Good coverage of key concepts."
  /\ (3 <= length
             (filter (fun kw => str_in kw (lower (Score.answer req)))
                (Score.keywords_for (lower (Score.question req)))))%nat.
Proof.
  intros req. split; [reflexivity|].
  apply (good_coverage_needs_keywords req). vm_compute. discriminate.
Defined.

(** ** The interview endpoints *)

Section InterviewFacts.

Lemma role_questions_length (role : string) :
  length (Interview.generate_role_based_questions role) = 3%nat
  \/ length (Interview.generate_role_based_questions role) = 5%nat.
Proof.
  unfold Interview.generate_role_based_questions.
  destruct (str_in "full" role && str_in "stack" role); [now right|].
  destruct (str_in "frontend" role); [now left|].
  destruct (str_in "backend" role); now left.
Qed.

Lemma firstn_all_short {A : Type} (n : nat) (l : list A) :
  (length l <= n)%nat -> firstn n l = l.
Proof.
  intros H. apply firstn_all2. exact H.
Qed.

End InterviewFacts.

(** X18: the interview start endpoint returns at least three and at most
    five questions, whatever the role, the skills and the resume text
    are. *)
Theorem interview_start_count (req : Interview.InterviewStartRequest) :
  (3 <= length (Interview.interview_start req) <= 5)%nat.
Proof.
  unfold Interview.interview_start.
  set (role := lower (str_or_empty (Interview.target_role req))).
  pose proof (role_questions_length role) as Hr.
  destruct (nonempty (str_or_empty (Interview.resume_text req))).
  - unfold Interview.generate_resume_based_questions.
    rewrite length_firstn, length_app. lia.
  - lia.
Qed.

(** X19: once the resume text itself gives five questions or more, the
    target role and the skills of the request no longer matter: the
    answer is the first five questions drawn from the resume. *)
Theorem resume_questions_crowd_out_role (text : string)
    (role : option string) (skills : list string) :
  (5 <= length (Interview.resume_questions text))%nat ->
  Interview.interview_start
    {| Interview.target_role := role;
       Interview.skills := skills;
       Interview.resume_text := Some text |}
  = firstn 5 (Interview.resume_questions text).
Proof.
  intros H. unfold Interview.interview_start.
  cbn [Interview.target_role Interview.skills Interview.resume_text str_or_empty].
  destruct text as [|c text]; [cbn in H; lia|].
  cbn [nonempty]. unfold Interview.generate_resume_based_questions.
  rewrite firstn_app.
  replace (5 - length (Interview.resume_questions (String c text)))%nat with 0%nat by lia.
  cbn [firstn]. now rewrite app_nil_r.
Qed.

Lemma resume_questions_crowd_out_role_witness :
  length
    (Interview.interview_start
       {| Interview.target_role := Some "Backend Engineer";
          Interview.skills := [];
          Interview.resume_text :=
            Some "Built a React and Redux project with Node and MongoDB on Docker and AWS." |})
  = 5%nat
  /\ Interview.interview_start
       {| Interview.target_role := Some "Backend Engineer";
          Interview.skills := [];
          Interview.resume_text :=
            Some "Built a React and Redux project with Node and MongoDB on Docker and AWS." |}
     = Interview.interview_start
         {| Interview.target_role := None;
            Interview.skills := ["Go"];
            Interview.resume_text :=
              Some "Built a React and Redux project with Node and MongoDB on Docker and AWS." |}.
Proof.
  rewrite !resume_questions_crowd_out_role by (vm_compute; lia).
  split; reflexivity.
Defined.

(** X20: a resume text that triggers none of the resume questions gets
    exactly the questions of the role, as a request without resume text
    does. *)
Theorem plain_resume_falls_back_to_role (text : string)
    (role : option string) (skills : list string) :
  Interview.resume_questions text = [] ->
  Interview.interview_start
    {| Interview.target_role := role;
       Interview.skills := skills;
       Interview.resume_text := Some text |}
  = Interview.generate_role_based_questions (lower (str_or_empty role))
  /\ Interview.interview_start
       {| Interview.target_role := role;
          Interview.skills := skills;
          Interview.resume_text := None |}
     = Interview.generate_role_based_questions (lower (str_or_empty role)).
Proof.
  intros H. unfold Interview.interview_start.
  cbn [Interview.target_role Interview.skills Interview.resume_text str_or_empty nonempty].
  split; [|reflexivity].
  destruct (nonempty text); [|reflexivity].
  unfold Interview.generate_resume_based_questions. rewrite H. cbn [app].
  apply firstn_all_short.
  destruct (role_questions_length (lower (str_or_empty role))) as [-> | ->]; lia.
Qed.

Lemma plain_resume_falls_back_to_role_witness :
  Interview.interview_start
    {| Interview.target_role := Some "Frontend Developer";
       Interview.skills := [];
       Interview.resume_text := Some "I enjoy hiking and painting." |}
  = Interview.generate_role_based_questions "frontend developer".
Proof.
  exact (proj1 (plain_resume_falls_back_to_role "I enjoy hiking and painting."
                  (Some "Frontend Developer") [] eq_refl)).
Defined.

(** ** The resume analysis endpoint *)

Section ResumeFacts.

Lemma resume_desired_length (role : string) :
  In (length (Resume.desired_for role)) [2; 4; 5; 7]%nat.
Proof.
  unfold Resume.desired_for.
  repeat match goal with
         | |- context [if ?b then _ else _] => destruct b
         end; cbn; tauto.
Qed.

Lemma filter_length_full {A : Type} (f : A -> bool) (l : list A) :
  length (filter f l) = length l <-> forall x, In x l -> f x = true.
Proof.
  induction l as [|a l IH]; cbn [filter length].
  - split; [intros _ x [] | reflexivity].
  - pose proof (filter_length_le f l) as Hle.
    destruct (f a) eqn:E; cbn [length].
    + split.
      * intros H x [<- | Hx]; [exact E|]. apply IH; [lia | exact Hx].
      * intros H. f_equal. apply IH. intros x Hx. apply H. now right.
    + split; [lia|]. intros H. rewrite (H a (or_introl eq_refl)) in E. discriminate E.
Qed.

(** The role fit, by the number of desired skills and of those among
    them that are missing. *)
Lemma fit_of_facts (n r : nat) :
  In n [2; 4; 5; 7]%nat -> (r <= n)%nat ->
  (0 <= Resume.fit_of n r <= 100)%Z
  /\ (Resume.fit_of n r = 100%Z <-> r = 0%nat)
  /\ (Resume.fit_of n r = 0%Z <-> r = n)
  /\ (r <> 0%nat -> (Resume.fit_of n r <= 85)%Z).
Proof.
  intros Hn Hr. cbn [In] in Hn.
  destruct Hn as [<- | [<- | [<- | [<- | []]]]];
    do 8 (destruct r as [|r]; [vm_compute; repeat split; intros; try discriminate; try lia; congruence|]);
    lia.
Qed.

Lemma round_half_even_small (num : Z) :
  (0 <= num <= 910)%Z -> (round_half_even num 100 <= 9)%Z.
Proof.
  intros H. unfold round_half_even.
  pose proof (Z.div_mod num 100 ltac:(lia)) as E.
  pose proof (Z.mod_pos_bound num 100 ltac:(lia)) as B.
  destruct (2 * (num mod 100) <? 100)%Z eqn:E1; [lia|].
  apply Z.ltb_ge in E1.
  destruct (100 <? 2 * (num mod 100))%Z; [lia|].
  destruct (Z.even (num / 100)); lia.
Qed.

(** The full score needs a complete fit and the four signals. *)
Lemma score_of_full (fit bonus : Z) :
  (0 <= fit <= 85)%Z -> (0 <= bonus <= 4)%Z -> Resume.score_of fit bonus <> 10%Z.
Proof.
  intros Hf Hb. unfold Resume.score_of.
  pose proof (round_half_even_small (6 * fit + 100 * bonus) ltac:(lia)). lia.
Qed.

End ResumeFacts.

(** X21: the role fit of an analysis lies between 0 and 100; it is 100
    exactly when no desired skill is reported missing, and 0 exactly when
    every desired skill is. *)
Theorem resume_fit_range (req : Resume.ResumeAnalyzeRequest) :
  let r := Resume.resume_analyze req in
  let desired :=
    Resume.desired_for (lower (str_or_empty (Resume.target_role req))) in
  (0 <= Resume.fit r <= 100)%Z
  /\ (Resume.fit r = 100%Z <-> Resume.missing_skills r = [])
  /\ (Resume.fit r = 0%Z
      <-> forall s, In s desired -> ~ In s (Resume.extracted_skills r)).
Proof.
  intros r desired. subst r. unfold Resume.resume_analyze.
  cbn [Resume.fit Resume.missing_skills Resume.extracted_skills]. fold desired.
  set (extracted := filter _ Resume.known_skills).
  set (recommended := filter _ desired).
  pose proof (resume_desired_length (lower (str_or_empty (Resume.target_role req)))) as Hn.
  fold desired in Hn.
  pose proof (filter_length_le (fun s => negb (mem s extracted)) desired) as Hr.
  fold recommended in Hr.
  destruct (fit_of_facts _ _ Hn Hr) as (Hrange & H100 & H0 & _).
  split; [exact Hrange|]. split.
  - rewrite H100. apply length_zero_iff_nil.
  - rewrite H0. unfold recommended. rewrite filter_length_full. split.
    + intros H s Hs. apply mem_false_iff, negb_true_iff. now apply H.
    + intros H s Hs. apply negb_true_iff, mem_false_iff. now apply H.
Qed.

(** X22: the missing skills of an analysis are those the gap endpoint
    reports for the same role and the skills the analysis extracted. *)
Theorem resume_gap_agrees (req : Resume.ResumeAnalyzeRequest) :
  let r := Resume.resume_analyze req in
  Resume.missing_skills r
  = Gap.missing
      (Gap.gap {| Gap.skills := Resume.extracted_skills r;
                  Gap.target_role := str_or_empty (Resume.target_role req) |}).
Proof.
  reflexivity.
Qed.

Section ResumeLists.

Lemma strengths_weaknesses_length (extracted recommended : list string)
    (has_metrics has_projects well_structured good_length : bool) (words : nat) :
  (length (Resume.strengths_of extracted has_metrics has_projects well_structured
             good_length)
   + length (Resume.weaknesses_of recommended has_metrics has_projects
               well_structured good_length words)
   = 4 + (if is_nil extracted then 0 else 1)
       + (if is_nil recommended then 0 else 1))%nat.
Proof.
  unfold Resume.strengths_of, Resume.weaknesses_of.
  destruct extracted, recommended, has_metrics, has_projects, well_structured,
    good_length; cbn [is_nil negb]; try reflexivity;
    destruct (words <? 200)%nat; reflexivity.
Qed.

Lemma weaknesses_nil_iff (recommended : list string)
    (has_metrics has_projects well_structured good_length : bool) (words : nat) :
  Resume.weaknesses_of recommended has_metrics has_projects well_structured
    good_length words = []
  <-> recommended = []
      /\ has_metrics = true /\ has_projects = true
      /\ well_structured = true /\ good_length = true.
Proof.
  unfold Resume.weaknesses_of.
  destruct recommended, has_metrics, has_projects, well_structured, good_length;
    cbn [is_nil negb app];
    try destruct (words <? 200)%nat;
    (split; [intros H; try discriminate H; repeat split
            | intros (H1 & H2 & H3 & H4 & H5);
              try discriminate; reflexivity]).
Qed.

Lemma score_full_iff (n r : nat)
    (has_metrics has_projects well_structured good_length : bool) :
  In n [2; 4; 5; 7]%nat -> (r <= n)%nat ->
  Resume.score_of (Resume.fit_of n r)
    (Resume.flag has_metrics + Resume.flag well_structured
     + Resume.flag has_projects + Resume.flag good_length) = 10%Z
  <-> r = 0%nat
      /\ has_metrics = true /\ has_projects = true
      /\ well_structured = true /\ good_length = true.
Proof.
  intros Hn Hr.
  destruct (fit_of_facts n r Hn Hr) as (Hrange & H100 & _ & H85).
  destruct r as [|r].
  - rewrite (proj2 H100 eq_refl).
    destruct has_metrics, has_projects, well_structured, good_length;
      (split; [intros H; try (vm_compute in H; discriminate H); repeat split
              | intros (H1 & H2 & H3 & H4 & H5);
                try discriminate; reflexivity]).
  - specialize (H85 ltac:(discriminate)). split.
    + intros H. exfalso. revert H. apply score_of_full; [lia|].
      destruct has_metrics, has_projects, well_structured, good_length; cbn; lia.
    + intros (H & _). discriminate H.
Qed.

Lemma filter_all {A : Type} (f : A -> bool) (l : list A) :
  (forall x, In x l -> f x = true) -> filter f l = l.
Proof.
  induction l as [|a l IH]; intros H; [reflexivity|].
  cbn [filter]. rewrite (H a (or_introl eq_refl)). f_equal.
  apply IH. intros x Hx. apply H. now right.
Qed.

End ResumeLists.

(** X23: each of the four signals (metrics, projects, structure, length)
    is reported once, as a strength or as a weakness; extracted skills
    add one strength and missing skills one weakness. *)
Theorem strengths_and_weaknesses_count (req : Resume.ResumeAnalyzeRequest) :
  let r := Resume.resume_analyze req in
  (length (Resume.strengths r) + length (Resume.weaknesses r)
   = 4 + (if is_nil (Resume.extracted_skills r) then 0 else 1)
       + (if is_nil (Resume.missing_skills r) then 0 else 1))%nat.
Proof.
  intros r. subst r. unfold Resume.resume_analyze.
  cbn [Resume.strengths Resume.weaknesses Resume.extracted_skills Resume.missing_skills].
  apply strengths_weaknesses_length.
Qed.

(** X24: the empty text, for every target role: nothing is extracted, so
    every desired skill is missing, the fit and the score are 0, there is
    no strength and there are five weaknesses. *)
Theorem empty_resume (role : option string) :
  let r := Resume.resume_analyze
             {| Resume.text := EmptyString; Resume.target_role := role |} in
  Resume.extracted_skills r = []
  /\ Resume.missing_skills r = Resume.desired_for (lower (str_or_empty role))
  /\ Resume.fit r = 0%Z
  /\ Resume.resume_score r = 0%Z
  /\ Resume.strengths r = []
  /\ length (Resume.weaknesses r) = 5%nat.
Proof.
  intros r. subst r. unfold Resume.resume_analyze.
  cbn [Resume.text Resume.target_role Resume.extracted_skills Resume.missing_skills
       Resume.fit Resume.resume_score Resume.strengths Resume.weaknesses].
  set (desired := Resume.desired_for _).
  change (filter (fun s => str_in (lower s) (lower EmptyString)) Resume.known_skills)
    with (@nil string).
  change (Resume.has_metrics_of EmptyString) with false.
  change (Resume.has_projects_of EmptyString) with false.
  change (Resume.well_structured_of EmptyString) with false.
  change (Resume.words_of EmptyString) with 1%nat.
  change (Resume.good_length_of 1) with false.
  rewrite (filter_all (fun s => negb (mem s [])) desired) by reflexivity.
  pose proof (resume_desired_length (lower (str_or_empty role))) as Hn.
  fold desired in Hn.
  destruct (fit_of_facts _ _ Hn (le_n _)) as (_ & _ & H0 & _).
  rewrite (proj2 H0 eq_refl).
  repeat split.
  destruct desired as [|x l]; [cbn in Hn; intuition discriminate | reflexivity].
Qed.

(** X25: an analysis gives the full score of 10 exactly when it lists no
    weakness: no desired skill is missing and the four signals are all
    present. *)
Theorem full_score_iff_no_weakness (req : Resume.ResumeAnalyzeRequest) :
  let r := Resume.resume_analyze req in
  Resume.resume_score r = 10%Z <-> Resume.weaknesses r = [].
Proof.
  intros r. subst r. unfold Resume.resume_analyze.
  cbn [Resume.resume_score Resume.weaknesses].
  set (desired := Resume.desired_for _).
  set (extracted := filter _ Resume.known_skills).
  set (recommended := filter _ desired).
  pose proof (resume_desired_length (lower (str_or_empty (Resume.target_role req)))) as Hn.
  fold desired in Hn.
  pose proof (filter_length_le (fun s => negb (mem s extracted)) desired) as Hr.
  fold recommended in Hr.
  rewrite (score_full_iff _ _ _ _ _ _ Hn Hr), weaknesses_nil_iff.
  now rewrite length_zero_iff_nil.
Qed.

(** ** The detailed interview endpoint *)

Section DetailedFacts.

Variable format_other : value -> string.

Lemma closing_count (questions : list string) (role : string) :
  let questions' :=
    if (length questions <? 3)%nat then
      (questions ++ Interview.generate_role_based_questions role)%list
    else questions in
  (3 <= length (firstn 6 questions') <= 6)%nat.
Proof.
  intros questions'. subst questions'. rewrite length_firstn.
  destruct (Nat.ltb_spec (length questions) 3) as [Hlt | Hge].
  - rewrite length_app.
    destruct (role_questions_length role) as [-> | ->]; lia.
  - lia.
Qed.

Lemma all_strs_returns (l : list value) :
  forallb (fun x => match x with VStr _ => true | _ => false end) l = true ->
  exists ss, Detailed.all_strs l = Detailed.Returned ss.
Proof.
  induction l as [|v l IH]; intros H; [now exists []|].
  cbn [forallb] in H. apply andb_prop in H. destruct H as [Hv Hl].
  destruct v; try discriminate Hv.
  destruct (IH Hl) as [ss E]. cbn [Detailed.all_strs]. rewrite E.
  now eexists.
Qed.

Lemma forallb_firstn {A : Type} (f : A -> bool) (n : nat) (l : list A) :
  forallb f l = true -> forallb f (firstn n l) = true.
Proof.
  revert l. induction n as [|n IH]; intros [|a l] H; try reflexivity.
  cbn [firstn forallb] in *. apply andb_prop in H. destruct H as [Ha Hl].
  now rewrite Ha, IH.
Qed.

(** A list of strings, or an absent one, passes the slice and the test
    of its items. *)
Lemma list_of_strs_slice (n : nat) (v : value) :
  Detailed.list_of_strs v = true ->
  exists ss,
    Detailed.and_then (Detailed.slice_items n v) Detailed.all_strs
    = Detailed.Returned ss.
Proof.
  destruct v; try discriminate. cbn [Detailed.list_of_strs]. intros H.
  cbn [Detailed.slice_items Detailed.and_then].
  apply all_strs_returns, forallb_firstn, H.
Qed.

End DetailedFacts.

(** X26: whenever the detailed generator returns, it returns at least
    three and at most six questions, whatever the analysis holds. *)
Theorem detailed_question_count (format_other : value -> string)
    (resume_text role : string) (skills : list string) (resume_analysis : dict)
    (questions : list string) :
  Detailed.generate_detailed_resume_questions format_other resume_text role skills
    resume_analysis = Detailed.Returned questions ->
  (3 <= length questions <= 6)%nat.
Proof.
  unfold Detailed.generate_detailed_resume_questions. intros H.
  repeat match type of H with
         | Detailed.and_then ?m _ = Detailed.Returned _ =>
             let q := fresh "q" in
             destruct m as [q|]; cbn [Detailed.and_then] in H; [|discriminate H]
         end.
  injection H as <-. apply closing_count.
Qed.

(** An analysis that gives three questions, the least. *)
Lemma detailed_question_count_witness :
  exists questions,
    Detailed.generate_detailed_resume_questions (fun _ => EmptyString)
      "Some resume text" "engineer" []
      [ ("strengths", VList [VStr "testing"]);
        ("weaknesses", VList [VStr "estimation"]);
        ("roleFit", VInt 75);
        ("score", VInt 50) ]
    = Detailed.Returned questions
    /\ length questions = 3%nat
    /\ (3 <= length questions <= 6)%nat.
Proof.
  eexists. split; [vm_compute; reflexivity|]. split; [reflexivity|].
  apply (detailed_question_count (fun _ => EmptyString)
           "Some resume text" "engineer" []
           [ ("strengths", VList [VStr "testing"]);
             ("weaknesses", VList [VStr "estimation"]);
             ("roleFit", VInt 75);
             ("score", VInt 50) ]).
  vm_compute. reflexivity.
Defined.

(** X27: on an analysis of the expected shape (the four lists absent or
    lists of strings, the two numbers absent or integers) the detailed
    generator raises nothing and returns its questions. *)
Theorem well_shaped_analysis_returns (format_other : value -> string)
    (resume_text role : string) (skills : list string) (resume_analysis : dict) :
  Detailed.well_shaped resume_analysis = true ->
  exists questions,
    Detailed.generate_detailed_resume_questions format_other resume_text role skills
      resume_analysis = Detailed.Returned questions.
Proof.
  unfold Detailed.well_shaped. intros H.
  repeat (apply andb_prop in H; destruct H as [H ?]).
  unfold Detailed.generate_detailed_resume_questions.
  destruct (Detailed.get_default "detectedSkills" resume_analysis (VList []))
    as [ | | | | | ld | | | ]; try discriminate H.
  destruct (Detailed.get_default "missingSkills" resume_analysis (VList []))
    as [ | | | | | lm | | | ]; try discriminate H4.
  destruct (Detailed.get_default "strengths" resume_analysis (VList []))
    as [ | | | | | ls | | | ]; try discriminate H3.
  destruct (Detailed.get_default "weaknesses" resume_analysis (VList []))
    as [ | | | | | lw | | | ]; try discriminate H2.
  destruct (Detailed.get_default "roleFit" resume_analysis (VInt 0))
    as [ | | rf | | | | | | ]; try discriminate H1.
  destruct (Detailed.get_default "score" resume_analysis (VInt 0))
    as [ | | sc | | | | | | ]; try discriminate H0.
  cbn [Detailed.list_of_strs] in *.
  destruct (all_strs_returns _ (forallb_firstn _ 3 _ H)) as [ds Ed].
  destruct (all_strs_returns _ (forallb_firstn _ 2 _ H3)) as [ss Es].
  destruct (all_strs_returns _ (forallb_firstn _ 2 _ H2)) as [ws Ew].
  cbn [truthy Detailed.slice_items Detailed.and_then Detailed.less_than Detailed.at_least].
  rewrite Ed, Es, Ew. cbn [Detailed.and_then].
  destruct ld as [|d ld]; destruct lm, ls, lw;
    cbn [is_nil negb Detailed.and_then firstn];
    repeat match goal with
           | |- context [if ?b then _ else _] => destruct b; cbn [Detailed.and_then]
           end;
    eexists; reflexivity.
Qed.

Lemma well_shaped_analysis_returns_witness :
  exists questions,
    Detailed.generate_detailed_resume_questions (fun _ => EmptyString)
      "Resume text" "backend" ["Go"]
      [ ("detectedSkills", VList [VStr "React"; VStr "PostgreSQL"]);
        ("missingSkills", VList [VStr "Docker"]);
        ("roleFit", VInt 90) ]
    = Detailed.Returned questions.
Proof.
  apply well_shaped_analysis_returns. reflexivity.
Defined.

(** X28: without resume text, or without a non-empty analysis, the
    detailed endpoint answers as the plain interview start endpoint does
    for the same role, skills and text. *)
Theorem detailed_falls_back (format_other : value -> string)
    (req : Detailed.DetailedInterviewRequest) :
  nonempty (str_or_empty (Detailed.resume_text req)) = false
  \/ is_nil (dict_or_empty (Detailed.resume_analysis req)) = true ->
  Detailed.interview_start_detailed format_other req
  = Detailed.Returned
      (Interview.interview_start
         {| Interview.target_role := Detailed.target_role req;
            Interview.skills := Detailed.skills req;
            Interview.resume_text := Detailed.resume_text req |}).
Proof.
  unfold Detailed.interview_start_detailed, Interview.interview_start.
  cbn [Interview.target_role Interview.skills Interview.resume_text].
  intros [H | H]; rewrite H.
  - reflexivity.
  - rewrite andb_false_r. now destruct (nonempty _).
Qed.

Lemma detailed_falls_back_witness :
  Detailed.interview_start_detailed (fun _ => EmptyString)
    {| Detailed.target_role := Some "Frontend";
       Detailed.skills := [];
       Detailed.resume_text := Some "Built a React project.";
       Detailed.resume_analysis := Some [] |}
  = Detailed.Returned
      (Interview.interview_start
         {| Interview.target_role := Some "Frontend";
            Interview.skills := [];
            Interview.resume_text := Some "Built a React project." |}).
Proof.
  apply (detailed_falls_back (fun _ => EmptyString)
           {| Detailed.target_role := Some "Frontend";
              Detailed.skills := [];
              Detailed.resume_text := Some "Built a React project.";
              Detailed.resume_analysis := Some [] |}).
  right. reflexivity.
Defined.
